(** * Xocolatl-XOC front end: supply modal, deposit tables and page container

    A shallow embedding of the TypeScript components
    - [app/lending/components/modals/SupplyTransactionModal.tsx],
    - [app/cdp/components/tables/DepositTable.tsx] (two revisions),
    - [app/cdp/components/tables/YourDeposits.tsx],
    - the lending page container,
    together with the part of the ECMAScript runtime they call
    ([parseFloat], [Number.prototype.toFixed], [Number] on a bigint,
    number comparison and division).

    JavaScript numbers are IEEE 754 binary64 values.  They are modelled by
    [spec_float] with precision 53 and maximal exponent 1024, so every
    rounding the components perform is performed by the model as well. *)

From stdpp Require Import gmap list strings option.
From Stdlib Require Import ZArith String Ascii List Bool Lia.
From Stdlib Require Import SpecFloat DecimalString.
Import ListNotations.

Local Open Scope Z_scope.

(* ===================================================================== *)
(** * The ECMAScript runtime used by the components                       *)
(* ===================================================================== *)

Module JS.

(** ** Number values *)

Definition number : Type := spec_float.

Definition prec : Z := 53.
Definition emax : Z := 1024.

Definition NaN : number := S754_nan.
Definition zero : number := S754_zero false.
Definition negzero : number := S754_zero true.
Definition infinity (neg : bool) : number := S754_infinity neg.

(** [isNaN(x)] on a value that already is a number. *)
Definition isNaN (x : number) : bool :=
  match x with
  | S754_nan => true
  | _ => false
  end.

(** [x < y], [x > y], [x <= y] and [x === y] on numbers. *)
Definition lt (x y : number) : bool := SFltb x y.
Definition gt (x y : number) : bool := SFltb y x.
Definition le (x y : number) : bool := SFleb x y.
Definition strictEq (x y : number) : bool := SFeqb x y.

(** [x / y] and [x - y]. *)
Definition div (x y : number) : number := SFdiv prec emax x y.
Definition sub (x y : number) : number := SFsub prec emax x y.

(** The number nearest to the rational [p / q] (ties to even), with the
    given sign.  The division of [SpecFloat] rounds the exact quotient of
    two integer mantissas of any size. *)
Definition ofRatio (neg : bool) (p q : positive) : number :=
  SFdiv prec emax (S754_finite neg p 0) (S754_finite false q 0).

(** The number nearest to [n * 10 ^ e]. *)
Definition ofDecimal (neg : bool) (n : N) (e : Z) : number :=
  match n with
  | N0 => S754_zero neg
  | Npos p =>
      if 0 <=? e then ofRatio neg (p * Z.to_pos (10 ^ e)) 1
      else ofRatio neg p (Z.to_pos (10 ^ (- e)))
  end.

(** [Number(b)] for a bigint [b]. *)
Definition ofBigInt (b : Z) : number :=
  match b with
  | Z0 => zero
  | Zpos p => ofRatio false p 1
  | Zneg p => ofRatio true p 1
  end.

(** [Math.pow(10, k)] and [10 ** k] for a natural exponent. *)
Definition pow10 (k : N) : number := ofBigInt (10 ^ Z.of_N k).

(** Truthiness of a number: [0], [-0] and [NaN] are falsy. *)
Definition truthy (x : number) : bool :=
  match x with
  | S754_zero _ | S754_nan => false
  | _ => true
  end.

(** ** Strings of decimal digits *)

Definition isWhiteSpace (c : ascii) : bool :=
  let n := N_of_ascii c in
  ((9 <=? n)%N && (n <=? 13)%N) || (n =? 32)%N.

Fixpoint trimStart (s : list ascii) : list ascii :=
  match s with
  | c :: s' => if isWhiteSpace c then trimStart s' else s
  | [] => []
  end.

Definition digitValue (c : ascii) : option N :=
  let n := N_of_ascii c in
  if ((48 <=? n)%N && (n <=? 57)%N)%bool then Some (n - 48)%N else None.

(** The longest run of decimal digits at the head of [s], and the rest. *)
Fixpoint takeDigits (s : list ascii) : list N * list ascii :=
  match s with
  | c :: s' =>
      match digitValue c with
      | Some d => let '(ds, r) := takeDigits s' in (d :: ds, r)
      | None => ([], s)
      end
  | [] => ([], [])
  end.

Definition digitsToN (ds : list N) : N :=
  fold_left (fun acc d => (10 * acc + d)%N) ds 0%N.

Fixpoint isPrefix (p s : list ascii) : bool :=
  match p, s with
  | [], _ => true
  | a :: p', b :: s' => Ascii.eqb a b && isPrefix p' s'
  | _ :: _, [] => false
  end.

(** ** parseFloat *)

(** The value of an [ExponentPart] at the head of [s]; [0] when there is
    none (an [e] that no digit follows does not belong to the literal). *)
Definition scanExponent (s : list ascii) : Z :=
  match s with
  | c :: r =>
      if (Ascii.eqb c "e" || Ascii.eqb c "E")%bool then
        let '(neg, r') :=
          match r with
          | c' :: r'' =>
              if Ascii.eqb c' "-" then (true, r'')
              else if Ascii.eqb c' "+" then (false, r'')
              else (false, r)
          | [] => (false, r)
          end in
        match takeDigits r' with
        | ([], _) => 0
        | (ds, _) =>
            let v := Z.of_N (digitsToN ds) in
            if neg then - v else v
        end
      else 0
  | [] => 0
  end.

(** The longest prefix of [s] that is a [StrUnsignedDecimalLiteral] other
    than [Infinity], as a digit string and a power of ten. *)
Definition scanUnsigned (s : list ascii) : option (N * Z) :=
  let '(ip, r1) := takeDigits s in
  match ip, r1 with
  | _ :: _, c :: r2 =>
      if Ascii.eqb c "." then
        let '(fp, r3) := takeDigits r2 in
        Some (digitsToN (ip ++ fp), scanExponent r3 - Z.of_nat (length fp))
      else Some (digitsToN ip, scanExponent r1)
  | _ :: _, [] => Some (digitsToN ip, 0)
  | [], c :: r2 =>
      if Ascii.eqb c "." then
        match takeDigits r2 with
        | ([], _) => None
        | (fp, r3) =>
            Some (digitsToN fp, scanExponent r3 - Z.of_nat (length fp))
        end
      else None
  | [], [] => None
  end.

Definition parseFloatChars (s : list ascii) : number :=
  let t := trimStart s in
  let '(neg, u) :=
    match t with
    | c :: r =>
        if Ascii.eqb c "-" then (true, r)
        else if Ascii.eqb c "+" then (false, r)
        else (false, t)
    | [] => (false, t)
    end in
  if isPrefix (list_ascii_of_string "Infinity") u then infinity neg
  else
    match scanUnsigned u with
    | Some (n, e) => ofDecimal neg n e
    | None => NaN
    end.

Definition parseFloat (s : string) : number :=
  parseFloatChars (list_ascii_of_string s).

(** ** Number.prototype.toString and Number.prototype.toFixed *)

Definition decimalOfN (n : N) : string :=
  NilZero.string_of_uint (N.to_uint n).

Fixpoint zeros (k : nat) : string :=
  match k with
  | O => EmptyString
  | S k' => String "0" (zeros k')
  end.

(** The exact value of the finite number with mantissa [m] and exponent
    [e], as a fraction. *)
Definition ratioOf (m : positive) (e : Z) : Z * Z :=
  if 0 <=? e then (Zpos m * 2 ^ e, 1) else (Zpos m, 2 ^ (- e)).

(** [p / q < 10 ^ n] *)
Definition belowPow10 (p q n : Z) : bool :=
  if 0 <=? n then p <? q * 10 ^ n else p * 10 ^ (- n) <? q.

(** The least [n], counting up from the given one, with [p / q < 10 ^ n]. *)
Fixpoint decimalExponent (fuel : nat) (n p q : Z) : Z :=
  match fuel with
  | O => n
  | S fuel' =>
      if belowPow10 p q n then n else decimalExponent fuel' (n + 1) p q
  end.

(** [p / q] divided by [10 ^ j], as a fraction. *)
Definition scaleDown (p q j : Z) : Z * Z :=
  if 0 <=? j then (p, q * 10 ^ j) else (p * 10 ^ (- j), q).

(** The digit string [s] with [k] digits and the exponent [n] such that
    [s * 10 ^ (n - k)] rounds to the number [x = p / q], if there is one
    with [k] digits; of two candidates the one nearer to [x]. *)
Definition shortestAt (x : number) (p q n0 : Z) (k : Z) : option (N * Z) :=
  let '(sp, sq) := scaleDown p q (n0 - k) in
  let lo := sp / sq in
  let hi := lo + 1 in
  let okLo :=
    match SFcompare (ofDecimal false (Z.to_N lo) (n0 - k)) x with
    | Some Eq => true
    | _ => false
    end in
  let okHi :=
    match SFcompare (ofDecimal false (Z.to_N hi) (n0 - k)) x with
    | Some Eq => true
    | _ => false
    end in
  let norm (s : Z) :=
    if s =? 10 ^ k then (Z.to_N (10 ^ (k - 1)), n0 + 1) else (Z.to_N s, n0) in
  match okLo, okHi with
  | true, true =>
      match 2 * sp ?= (2 * lo + 1) * sq with
      | Lt => Some (norm lo)
      | Gt => Some (norm hi)
      | Eq => Some (norm (if Z.even lo then lo else hi))
      end
  | true, false => Some (norm lo)
  | false, true => Some (norm hi)
  | false, false => None
  end.

Fixpoint shortest (fuel : nat) (x : number) (p q n0 k : Z) : N * Z * Z :=
  match fuel with
  | O => (0%N, n0, k)
  | S fuel' =>
      match shortestAt x p q n0 k with
      | Some (s, n) => (s, n, k)
      | None => shortest fuel' x p q n0 (k + 1)
      end
  end.

Definition formatShortest (s : N) (n k : Z) : string :=
  let ds := decimalOfN s in
  if (k <=? n) && (n <=? 21) then ds +:+ zeros (Z.to_nat (n - k))
  else if (0 <? n) && (n <=? 21) then
    substring 0 (Z.to_nat n) ds +:+ "." +:+
    substring (Z.to_nat n) (Z.to_nat (k - n)) ds
  else if (-6 <? n) && (n <=? 0) then "0." +:+ zeros (Z.to_nat (- n)) +:+ ds
  else
    let e := n - 1 in
    let es := (if 0 <=? e then "+" else "-") +:+ decimalOfN (Z.abs_N e) in
    if k =? 1 then ds +:+ "e" +:+ es
    else substring 0 1 ds +:+ "." +:+ substring 1 (Z.to_nat (k - 1)) ds
         +:+ "e" +:+ es.

(** [x.toString()]: the shortest decimal string that reads back as [x]. *)
Definition toString (x : number) : string :=
  match x with
  | S754_nan => "NaN"
  | S754_zero _ => "0"
  | S754_infinity neg => if neg then "-Infinity" else "Infinity"
  | S754_finite neg m e =>
      let '(p, q) := ratioOf m e in
      let n0 := decimalExponent 640 (-324) p q in
      let '(s, n, k) := shortest 17 (S754_finite false m e) p q n0 1 in
      (if neg then "-" else "") +:+ formatShortest s n k
  end.

(** The digits of [n], padded with zeros on the left to [f + 1] digits,
    with a decimal point before the last [f] of them. *)
Definition fixedDigits (n : N) (f : nat) : string :=
  let m := list_ascii_of_string (decimalOfN n) in
  match f with
  | O => string_of_list_ascii m
  | S _ =>
      let m' := replicate (S f - length m) "0"%char ++ m in
      let k := length m' in
      string_of_list_ascii
        (take (k - f) m' ++ "."%char :: drop (k - f) m')
  end.

(** The integer [n] for which [n / 10 ^ f] is nearest to [p / q]; of two
    such integers the larger. *)
Definition nearestScaled (p q : Z) (f : nat) : N :=
  Z.to_N ((2 * p * 10 ^ Z.of_nat f + q) / (2 * q)).

(** [x.toFixed(f)] for [0 <= f <= 100]. *)
Definition toFixed (x : number) (f : nat) : string :=
  match x with
  | S754_nan => "NaN"
  | S754_infinity neg => if neg then "-Infinity" else "Infinity"
  | S754_zero _ => fixedDigits 0 f
  | S754_finite neg m e =>
      let '(p, q) := ratioOf m e in
      if 10 ^ 21 * q <=? p then toString x
      else (if neg then "-" else "") +:+ fixedDigits (nearestScaled p q f) f
  end.

End JS.

(* ===================================================================== *)
(** * SupplyTransactionModal.tsx                                          *)
(* ===================================================================== *)

Module SupplyModal.

(** ** Props, hook results and component state *)

(** The fields of [ReserveData] the modal reads.  [decimals] is the
    [uint8] the token contract declares. *)
Record ReserveData := {
  symbol : string;
  decimals : N;
  underlyingAsset : string;
  liquidityRate : Z;
  usageAsCollateralEnabled : bool
}.

Record Props := {
  isOpen : bool;
  reserve : option ReserveData;
  balance : string
}.

(** What [useSupply], [useAccountAddress] and [useApproval] hand to the
    component on a render.  [error] is the error object of [useSupply]
    (its [message]); the component takes no error object from
    [useApproval]. *)
Record Hooks := {
  supplyError : bool;
  error : option string;
  supplyData : option string;
  walletAddress : option string;
  approveError : bool;
  approveSuccess : bool;
  approvePending : bool
}.

(** The seven [useState] cells. *)
Record State := {
  amount : string;
  isValid : bool;
  errorMessage : string;
  data : option string;
  isError : bool;
  showSuccessIcon : bool;
  isApproved : bool
}.

Definition initialState : State := {|
  amount := "";
  isValid := false;
  errorMessage := "";
  data := None;
  isError := false;
  showSuccessIcon := false;
  isApproved := false
|}.

Definition setAmount (v : string) (s : State) : State :=
  {| amount := v; isValid := isValid s; errorMessage := errorMessage s;
     data := data s; isError := isError s;
     showSuccessIcon := showSuccessIcon s; isApproved := isApproved s |}.

Definition setIsValid (v : bool) (s : State) : State :=
  {| amount := amount s; isValid := v; errorMessage := errorMessage s;
     data := data s; isError := isError s;
     showSuccessIcon := showSuccessIcon s; isApproved := isApproved s |}.

Definition setErrorMessage (v : string) (s : State) : State :=
  {| amount := amount s; isValid := isValid s; errorMessage := v;
     data := data s; isError := isError s;
     showSuccessIcon := showSuccessIcon s; isApproved := isApproved s |}.

Definition setData (v : option string) (s : State) : State :=
  {| amount := amount s; isValid := isValid s;
     errorMessage := errorMessage s; data := v; isError := isError s;
     showSuccessIcon := showSuccessIcon s; isApproved := isApproved s |}.

Definition setIsError (v : bool) (s : State) : State :=
  {| amount := amount s; isValid := isValid s;
     errorMessage := errorMessage s; data := data s; isError := v;
     showSuccessIcon := showSuccessIcon s; isApproved := isApproved s |}.

Definition setShowSuccessIcon (v : bool) (s : State) : State :=
  {| amount := amount s; isValid := isValid s;
     errorMessage := errorMessage s; data := data s; isError := isError s;
     showSuccessIcon := v; isApproved := isApproved s |}.

Definition setIsApproved (v : bool) (s : State) : State :=
  {| amount := amount s; isValid := isValid s;
     errorMessage := errorMessage s; data := data s; isError := isError s;
     showSuccessIcon := showSuccessIcon s; isApproved := v |}.

(** Truthiness of a string and of a possibly undefined string. *)
Definition truthyString (s : string) : bool := negb (String.eqb s "").

Definition truthyOpt (o : option string) : bool :=
  match o with
  | Some s => truthyString s
  | None => false
  end.

(** ** validateAmount *)

Definition validateAmount (balance value : string) (s : State) : State :=
  let numValue := JS.parseFloat value in
  if JS.isNaN numValue || JS.lt numValue JS.zero then
    setErrorMessage "Amount must be a positive number." (setIsValid false s)
  else if JS.gt numValue (JS.parseFloat balance) then
    setErrorMessage "Amount exceeds wallet balance." (setIsValid false s)
  else if JS.strictEq numValue JS.zero then
    setErrorMessage "Amount must be greater than zero." (setIsValid false s)
  else
    setErrorMessage "" (setIsValid true s).

(** ** Event handlers *)

(** What a handler asks of the world outside the component. *)
Inductive Call :=
| Approve (adjustedAmount : string)
| HandleSupply (asset : string) (amountInWei : Z) (wallet : string)
| OnClose
| ClipboardWriteText (text : string)
| ConsoleError (text : string).

Definition handleChange (value : string) (s : State) : State :=
  setAmount value s.

Definition handleMaxClick (p : Props) (s : State) : State :=
  setAmount (balance p) s.

(** The string [handleApproveClick] passes to [approve]. *)
Definition adjustedAmount (r : ReserveData) (amount : string) : string :=
  if (decimals r <? 18)%N then
    let factor := JS.pow10 (18 - decimals r) in
    JS.toFixed (JS.div (JS.parseFloat amount) factor) 18
  else amount.

Definition handleApproveClick (r : ReserveData) (h : Hooks) (s : State)
  : list Call :=
  if truthyOpt (walletAddress h)
  then [Approve (adjustedAmount r (amount s))]
  else [].

Definition handleCopyError (h : Hooks) : list Call :=
  match error h with
  | Some m => if truthyString m then [ClipboardWriteText m] else []
  | None => []
  end.

Definition handleClose (s : State) : State * list Call :=
  (setIsApproved false
     (setIsError false
        (setData None
           (setErrorMessage "" (setIsValid false (setAmount "" s))))),
   [OnClose]).

(** ** Effects *)

(** [useEffect(..., [approveSuccess])] *)
Definition approvalEffect (h : Hooks) (s : State) : State :=
  if approveSuccess h then setIsApproved true s else s.

(** [error?.message || "An unknown error occurred."] *)
Definition errorMessageOrDefault (h : Hooks) : string :=
  match error h with
  | Some m => if truthyString m then m else "An unknown error occurred."
  | None => "An unknown error occurred."
  end.

(** [useEffect(..., [supplyError, supplyData, error])] *)
Definition supplyEffect (h : Hooks) (s : State) : State :=
  let s1 :=
    if supplyError h
    then setErrorMessage (errorMessageOrDefault h) (setIsError true s)
    else s in
  if truthyOpt (supplyData h) then setData (supplyData h) s1 else s1.

Definition optEqb (a b : option string) : bool :=
  match a, b with
  | Some x, Some y => String.eqb x y
  | None, None => true
  | _, _ => false
  end.

Definition supplyDepsEqb (h h' : Hooks) : bool :=
  Bool.eqb (supplyError h) (supplyError h')
  && optEqb (supplyData h) (supplyData h')
  && optEqb (error h) (error h').

(** The effects that run after a render: each one whose dependencies
    differ from those of the previous render, in the order of their
    declaration.  [validateAmount] depends on [amount] only. *)
Definition runEffects (p : Props) (h h' : Hooks) (s s' : State) : State :=
  let s1 :=
    if String.eqb (amount s) (amount s') then s'
    else validateAmount (balance p) (amount s') s' in
  let s2 :=
    if Bool.eqb (approveSuccess h) (approveSuccess h') then s1
    else approvalEffect h' s1 in
  if supplyDepsEqb h h' then s2 else supplyEffect h' s2.

(** The state once the effects of the first render have run. *)
Definition mount (p : Props) (h : Hooks) : State :=
  supplyEffect h
    (approvalEffect h (validateAmount (balance p) "" initialState)).

(** ** Rendering *)

Record FormView := {
  inputValue : string;
  walletBalance : string;
  errorText : option string;
  supplyAPY : string;
  collateralEnabled : bool;
  approvePrimary : bool;
  approveDisabled : bool;
  supplyPrimary : bool;
  supplyDisabled : bool
}.

Record ErrorPanel := {
  panelMessage : option string;
  copiedNotice : bool
}.

Record View := {
  heading : string;
  form : option FormView;
  allDone : bool;
  errorPanel : option ErrorPanel
}.

Definition renderForm (r : ReserveData) (p : Props) (h : Hooks) (s : State)
  : FormView := {|
  inputValue := amount s;
  walletBalance := balance p;
  errorText :=
    if truthyString (errorMessage s) then Some (errorMessage s) else None;
  supplyAPY :=
    JS.toFixed
      (JS.div (JS.ofBigInt (liquidityRate r)) (JS.ofDecimal false 1 25)) 2
    +:+ "%";
  collateralEnabled := usageAsCollateralEnabled r;
  approvePrimary := isValid s && negb (isApproved s);
  approveDisabled := negb (isValid s) || approvePending h || isApproved s;
  supplyPrimary := isApproved s && isValid s;
  supplyDisabled := negb (isApproved s) || negb (isValid s)
|}.

(** [None] is the [null] the component returns while it is closed or has
    no reserve. *)
Definition render (p : Props) (h : Hooks) (s : State) : option View :=
  match isOpen p, reserve p with
  | true, Some r =>
      Some {|
        heading := "Supply " +:+ symbol r;
        form :=
          if negb (truthyOpt (data s)) && negb (isError s)
          then Some (renderForm r p h s) else None;
        allDone := truthyOpt (data s);
        errorPanel :=
          if approveError h
          then Some {| panelMessage := error h;
                       copiedNotice := showSuccessIcon s |}
          else None
      |}
  | _, _ => None
  end.

(** ** The component as a transition system *)

Inductive Button :=
| MaxLink
| ApproveButton
| SupplyButton
| CancelButton
| OkCloseButton
| CopyErrorButton
| ErrorCloseButton.

Inductive Event :=
| Input (value : string)
| Click (b : Button)
| ClipboardWritten
| CopyNoticeTimeout
| Rerender (p' : Props) (h' : Hooks).

Record Config := {
  props : Props;
  hooks : Hooks;
  state : State
}.

(** A button can be clicked when it is on the page and not disabled. *)
Definition clickable (v : View) (b : Button) : bool :=
  match b with
  | MaxLink | CancelButton =>
      match form v with Some _ => true | None => false end
  | ApproveButton =>
      match form v with
      | Some f => negb (approveDisabled f)
      | None => false
      end
  | SupplyButton =>
      match form v with
      | Some f => negb (supplyDisabled f)
      | None => false
      end
  | OkCloseButton => allDone v
  | CopyErrorButton | ErrorCloseButton =>
      match errorPanel v with Some _ => true | None => false end
  end.

Section WithConverter.

(** [utils/toWeiConverter] is not among the sources; it is a parameter
    of the model.  [None] stands for an exception, which
    [handleSupplyClick] catches. *)
Variable toWeiConverter : JS.number -> N -> option Z.

Definition handleSupplyClick (r : ReserveData) (h : Hooks) (s : State)
  : list Call :=
  match walletAddress h with
  | Some w =>
      if truthyString w && isApproved s then
        match toWeiConverter (JS.parseFloat (amount s)) (decimals r) with
        | Some amountInWei =>
            [HandleSupply (underlyingAsset r) amountInWei w]
        | None => [ConsoleError "Error converting amount to BigInt:"]
        end
      else [ConsoleError "Approval is required before supply."]
  | None => [ConsoleError "Approval is required before supply."]
  end.

(** The handler of a button: the new state and the calls it makes. *)
Definition onClick (r : ReserveData) (p : Props) (h : Hooks) (s : State)
    (b : Button) : State * list Call :=
  match b with
  | MaxLink => (handleMaxClick p s, [])
  | ApproveButton => (s, handleApproveClick r h s)
  | SupplyButton => (s, handleSupplyClick r h s)
  | CancelButton | OkCloseButton | ErrorCloseButton => handleClose s
  | CopyErrorButton => (s, handleCopyError h)
  end.

Definition withState (c : Config) (s' : State) : Config :=
  {| props := props c; hooks := hooks c;
     state := runEffects (props c) (hooks c) (hooks c) (state c) s' |}.

Definition step (c : Config) (ev : Event) : Config * list Call :=
  match ev with
  | Input value =>
      match render (props c) (hooks c) (state c) with
      | Some {| form := Some _ |} =>
          (withState c (handleChange value (state c)), [])
      | _ => (c, [])
      end
  | Click b =>
      match render (props c) (hooks c) (state c), reserve (props c) with
      | Some v, Some r =>
          if clickable v b then
            let '(s', calls) := onClick r (props c) (hooks c) (state c) b in
            (withState c s', calls)
          else (c, [])
      | _, _ => (c, [])
      end
  | ClipboardWritten =>
      (withState c (setShowSuccessIcon true (state c)), [])
  | CopyNoticeTimeout =>
      (withState c (setShowSuccessIcon false (state c)), [])
  | Rerender p' h' =>
      ({| props := p'; hooks := h';
          state := runEffects p' (hooks c) h' (state c) (state c) |}, [])
  end.

(** Running a list of events; the calls are collected in order. *)
Fixpoint run (c : Config) (evs : list Event) : Config * list Call :=
  match evs with
  | [] => (c, [])
  | ev :: evs' =>
      let '(c1, calls1) := step c ev in
      let '(c2, calls2) := run c1 evs' in
      (c2, calls1 ++ calls2)
  end.

Definition mounted (p : Props) (h : Hooks) : Config :=
  {| props := p; hooks := h; state := mount p h |}.

Inductive reachable : Config -> Prop :=
| reachable_mounted p h : reachable (mounted p h)
| reachable_step c ev : reachable c -> reachable (fst (step c ev)).

End WithConverter.

End SupplyModal.

(* ===================================================================== *)
(** * DepositTable.tsx                                                    *)
(* ===================================================================== *)

(** What the two revisions of the table share: the shape of an asset
    descriptor, the lookup by chain and the rows. *)
Module AssetTable.

Record Asset := {
  name : string;
  maxLTV : string;
  liquidationThreshold : string;
  houseOfReserveContract : string;
  assetContract : string
}.

(** One [<tr>] of the table body. *)
Record Row := {
  key : string;
  nameCell : string;
  balanceOfToken : string;
  maxLTVCell : string;
  liquidationThresholdCell : string;
  depositArgs : string * string * string;
  withdrawArgs : string * string * string
}.

Definition renderRow (asset : Asset) : Row := {|
  key := name asset;
  nameCell := name asset;
  balanceOfToken := assetContract asset;
  maxLTVCell := maxLTV asset;
  liquidationThresholdCell := liquidationThreshold asset;
  depositArgs :=
    (name asset, houseOfReserveContract asset, assetContract asset);
  withdrawArgs :=
    (name asset, houseOfReserveContract asset, assetContract asset)
|}.

Section Registry.

Variable assets : gmap Z (list Asset).

(** [assets[chainId] || []]: an array is truthy, also an empty one. *)
Definition chainAssets (chainId : Z) : list Asset :=
  default [] (assets !! chainId).

(** [chainAssets.map(asset => <tr key={asset.name}> ... </tr>)] *)
Definition tableBody (chainId : Z) : list Row :=
  map renderRow (chainAssets chainId).

End Registry.

(** A percentage string such as ["85%"]: digits and a percent sign. *)
Definition percentOf (s : string) : option N :=
  match JS.takeDigits (list_ascii_of_string s) with
  | (d :: ds, [c]) =>
      if Ascii.eqb c "%" then Some (JS.digitsToN (d :: ds)) else None
  | _ => None
  end.

End AssetTable.

(** [packages/nextjs/app/cdp/components/tables/DepositTable.tsx] *)
Module DepositTable.
Import AssetTable.

Definition assets : gmap Z (list Asset) :=
  {[ 56 :=
       [ {| name := "WETH"; maxLTV := "85%"; liquidationThreshold := "85%";
            houseOfReserveContract :=
              "0xd411BE9A105Ea7701FabBe58C2834b7033EBC203";
            assetContract := "0x2170ed0880ac9a755fd29b2688956bd959f933f8" |};
         {| name := "WBNB"; maxLTV := "70%"; liquidationThreshold := "85%";
            houseOfReserveContract :=
              "0x070ccE6887E70b75015F948b12601D1E759D2024";
            assetContract := "0xbb4cdb9cbd36b01bd1cbaebf2de08d9173bc095c" |} ];
     137 :=
       [ {| name := "WETH"; maxLTV := "85%"; liquidationThreshold := "85%";
            houseOfReserveContract :=
              "0xd411BE9A105Ea7701FabBe58C2834b7033EBC203";
            assetContract := "0x7ceb23fd6bc0add59e62ac25578270cff1b9f619" |};
         {| name := "wstETH"; maxLTV := "70%"; liquidationThreshold := "85%";
            houseOfReserveContract :=
              "0x28C7DF27e5bC7Cb004c8D4bb2C2D91f246D0A2C9";
            assetContract := "0x03b54a6e9a984069379fae1a4fc4dbae93b3bccd" |};
         {| name := "MATICX"; maxLTV := "60%"; liquidationThreshold := "85%";
            houseOfReserveContract :=
              "0x102dda5f4621a08dafD327f29f9c815f851846dC";
            assetContract := "0xfa68fb4628dff1028cfec22b4162fccd0d45efb6" |};
         {| name := "WMATIC"; maxLTV := "70%"; liquidationThreshold := "85%";
            houseOfReserveContract :=
              "0xdB9Dd25660240415d95144C6CE4f21f00Edf8168";
            assetContract := "0x0d500B1d8E8eF31E21C99d1Db9A6444d3ADf1270" |};
         {| name := "WBTC"; maxLTV := "70%"; liquidationThreshold := "85%";
            houseOfReserveContract :=
              "0x983A0eC44bf1BB11592a8bD5F91f05adE4F44D81";
            assetContract := "0x1bfd67037b42cf73acf2047067bd4f2c47d9bfd6" |} ];
     8453 :=
       [ {| name := "WETH"; maxLTV := "80%"; liquidationThreshold := "85%";
            houseOfReserveContract :=
              "0xfF69E183A863151B4152055974aa648b3165014D";
            assetContract := "0x4200000000000000000000000000000000000006" |};
         {| name := "cbETH"; maxLTV := "80%"; liquidationThreshold := "85%";
            houseOfReserveContract :=
              "0x5c4a154690AE52844F151bcF3aA44885db3c8A58";
            assetContract := "0x2Ae3F1Ec7F1F5012CFEab0185bfc7aa3cf0DEc22" |} ]
  ]}.

Definition chainAssets : Z -> list Asset := AssetTable.chainAssets assets.
Definition tableBody : Z -> list Row := AssetTable.tableBody assets.

End DepositTable.

(** The revision of [DepositTable.tsx] with translated column titles. *)
Module DepositTableTranslated.
Import AssetTable.

Definition assets : gmap Z (list Asset) :=
  {[ 56 :=
       [ {| name := "WETH"; maxLTV := "85%"; liquidationThreshold := "85%";
            houseOfReserveContract :=
              "0xd411BE9A105Ea7701FabBe58C2834b7033EBC203";
            assetContract := "0x2170ed0880ac9a755fd29b2688956bd959f933f8" |};
         {| name := "WBNB"; maxLTV := "70%"; liquidationThreshold := "85%";
            houseOfReserveContract :=
              "0x070ccE6887E70b75015F948b12601D1E759D2024";
            assetContract := "0xbb4cdb9cbd36b01bd1cbaebf2de08d9173bc095c" |} ];
     137 :=
       [ {| name := "WETH"; maxLTV := "85%"; liquidationThreshold := "85%";
            houseOfReserveContract :=
              "0x2718644E0C38A6a1F82136FC31dcA00DFCdF92a3";
            assetContract := "0x7ceb23fd6bc0add59e62ac25578270cff1b9f619" |};
         {| name := "MATICX"; maxLTV := "60%"; liquidationThreshold := "85%";
            houseOfReserveContract :=
              "0x76CAc0bC384a49485627D2235fE132e3038b45BB";
            assetContract := "0xfa68fb4628dff1028cfec22b4162fccd0d45efb6" |};
         {| name := "WMATIC"; maxLTV := "70%"; liquidationThreshold := "85%";
            houseOfReserveContract :=
              "0xF56293025437Db5C0024a37dfcEc792125d56A48";
            assetContract := "0x0d500B1d8E8eF31E21C99d1Db9A6444d3ADf1270" |} ];
     8453 :=
       [ {| name := "WETH"; maxLTV := "80%"; liquidationThreshold := "85%";
            houseOfReserveContract :=
              "0xfF69E183A863151B4152055974aa648b3165014D";
            assetContract := "0x4200000000000000000000000000000000000006" |};
         {| name := "cbETH"; maxLTV := "80%"; liquidationThreshold := "85%";
            houseOfReserveContract :=
              "0x5c4a154690AE52844F151bcF3aA44885db3c8A58";
            assetContract := "0x2Ae3F1Ec7F1F5012CFEab0185bfc7aa3cf0DEc22" |} ]
  ]}.

Definition chainAssets : Z -> list Asset := AssetTable.chainAssets assets.
Definition tableBody : Z -> list Row := AssetTable.tableBody assets.

End DepositTableTranslated.

(* ===================================================================== *)
(** * YourDeposits.tsx                                                    *)
(* ===================================================================== *)

Module YourDeposits.

Record Deposit := {
  symbol : string;
  amount : JS.number;
  minted : JS.number;
  mintingPower : JS.number;
  houseofReserveContract : string;
  assetContract : string;
  houseOfCoinContract : string;
  assetsAccountantContract : string;
  usageAsCollateralEnabled : bool
}.

(** The results of the contract reads of one render: [None] is the
    [undefined] of a read that has no data. *)
Record Reads := {
  batchDeposits : option (list Z);
  batchMints : option (list Z);
  checkRemainingMintingPower : option Z
}.

Definition noBalances : list JS.number :=
  [JS.zero; JS.zero; JS.zero; JS.zero; JS.zero].

(** [batch ? batch.map(b => Number(b) / 10 ** 18) : [0, 0, 0, 0, 0]] *)
Definition formatBatch (batch : option (list Z)) : list JS.number :=
  match batch with
  | Some l => map (fun b => JS.div (JS.ofBigInt b) (JS.pow10 18)) l
  | None => noBalances
  end.

Definition formattedBalances (rd : Reads) : list JS.number :=
  formatBatch (batchDeposits rd).

Definition formattedMints (rd : Reads) : list JS.number :=
  formatBatch (batchMints rd).

(** A bigint is truthy unless it is [0n]. *)
Definition formattedMintingPower (rd : Reads) : string :=
  match checkRemainingMintingPower rd with
  | Some c =>
      if c =? 0 then "0"
      else JS.toString (JS.div (JS.ofBigInt c) (JS.pow10 18))
  | None => "0"
  end.

(** [parseFloat(l[i].toFixed(6))]; [None] is the [TypeError] of calling
    [toFixed] on [undefined]. *)
Definition fixed6 (l : list JS.number) (i : nat) : option JS.number :=
  x ← l !! i; Some (JS.parseFloat (JS.toFixed x 6)).

Definition entry (rd : Reads) (i : nat) (sym reserve asset coin accountant
    : string) (collateral : bool) : option Deposit :=
  a ← fixed6 (formattedBalances rd) i;
  m ← fixed6 (formattedMints rd) i;
  Some {| symbol := sym; amount := a; minted := m;
          mintingPower := JS.parseFloat (formattedMintingPower rd);
          houseofReserveContract := reserve; assetContract := asset;
          houseOfCoinContract := coin;
          assetsAccountantContract := accountant;
          usageAsCollateralEnabled := collateral |}.

Definition accountant : string :=
  "0xB90996A70C957a1496e349434CF0E030A9f693A4".
Definition accountantBase : string :=
  "0xB93EcD005B6053c6F8428645aAA879e7028408C7".
Definition coinBsc : string :=
  "0x518Ad4acAdb3FdE4Ab990a79A0583FA8c4E35FcA".
Definition coinPolygon : string :=
  "0x7ed1acd46de3a4e63f2d3b0f4fb5532e113a520b".
Definition coinBase : string :=
  "0x02c531Cd9791dD3A31428B2987A82361D72F9b13".

(** The object literal [deposits]: every entry of every chain is
    evaluated on each render, in the order it is written. *)
Definition deposits (rd : Reads) : option (gmap Z (list Deposit)) :=
  b0 ← entry rd 0 "WETH" "0xd411BE9A105Ea7701FabBe58C2834b7033EBC203"
        "0x2170ed0880ac9a755fd29b2688956bd959f933f8" coinBsc accountant true;
  b1 ← entry rd 1 "WBNB" "0x070ccE6887E70b75015F948b12601D1E759D2024"
        "0xbb4cdb9cbd36b01bd1cbaebf2de08d9173bc095c" coinBsc accountant
        false;
  p0 ← entry rd 0 "WETH" "0xd411BE9A105Ea7701FabBe58C2834b7033EBC203"
        "0x7ceb23fd6bc0add59e62ac25578270cff1b9f619" coinPolygon accountant
        true;
  p1 ← entry rd 1 "wstETH" "0x28C7DF27e5bC7Cb004c8D4bb2C2D91f246D0A2C9"
        "0x03b54a6e9a984069379fae1a4fc4dbae93b3bccd" coinPolygon accountant
        false;
  p2 ← entry rd 2 "MATICX" "0x102dda5f4621a08dafD327f29f9c815f851846dC"
        "0xfa68fb4628dff1028cfec22b4162fccd0d45efb6" coinPolygon accountant
        true;
  p3 ← entry rd 3 "WMATIC" "0xdB9Dd25660240415d95144C6CE4f21f00Edf8168"
        "0x0d500B1d8E8eF31E21C99d1Db9A6444d3ADf1270" coinPolygon accountant
        false;
  p4 ← entry rd 4 "WBTC" "0x983A0eC44bf1BB11592a8bD5F91f05adE4F44D81"
        "0x1bfd67037b42cf73acf2047067bd4f2c47d9bfd6" coinPolygon accountant
        true;
  e0 ← entry rd 0 "WETH" "0xfF69E183A863151B4152055974aa648b3165014D"
        "0x4200000000000000000000000000000000000006" coinBase
        accountantBase true;
  e1 ← entry rd 1 "cbETH" "0x070ccE6887E70b75015F948b12601D1E759D2024"
        "0x2Ae3F1Ec7F1F5012CFEab0185bfc7aa3cf0DEc22" coinBase
        accountantBase false;
  Some {[ 56 := [b0; b1]; 137 := [p0; p1; p2; p3; p4]; 8453 := [e0; e1] ]}.

(** [deposits[chainId] || []] *)
Definition chainDeposits (rd : Reads) (chainId : Z)
  : option (list Deposit) :=
  ds ← deposits rd; Some (default [] (ds !! chainId)).

(** [formattedBalances.every(balance => balance === 0)] *)
Definition allDepositsZero (rd : Reads) : bool :=
  forallb (fun b => JS.strictEq b JS.zero) (formattedBalances rd).

Inductive View :=
| DepositsTable (rows : list Deposit)
| NothingDeposited.

(** The element the component returns; [None] when the render throws. *)
Definition render (rd : Reads) (chainId : Z) : option View :=
  cd ← chainDeposits rd chainId;
  Some (if (0 <? length cd)%nat && negb (allDepositsZero rd)
        then DepositsTable cd else NothingDeposited).

End YourDeposits.

(* ===================================================================== *)
(** * The lending page container                                          *)
(* ===================================================================== *)

Module Lending.

(** The fields of the account data the page reads. *)
Record UserAccountData := {
  ltv : JS.number;
  healthFactor : JS.number
}.

(** What [useGetUserAccountData] returns. *)
Record AccountRead := {
  userAccountData : option UserAccountData;
  isLoading : bool;
  isError : bool
}.

Inductive Header :=
| Loading
| ErrorLoadingData
| ProfileStats (balance netAPY healthFactor : JS.number).

(** [x || 0] for a possibly undefined number [x]. *)
Definition orZero (x : option JS.number) : JS.number :=
  match x with
  | Some v => if JS.truthy v then v else JS.zero
  | None => JS.zero
  end.

Definition header (suppliesTotalBalance borrowsTotalBalance : JS.number)
    (a : AccountRead) : Header :=
  let netWorth := JS.sub suppliesTotalBalance borrowsTotalBalance in
  if isLoading a then Loading
  else if isError a then ErrorLoadingData
  else ProfileStats netWorth
         (orZero (ltv <$> userAccountData a))
         (orZero (healthFactor <$> userAccountData a)).

End Lending.

(* ===================================================================== *)
(** * DepositTable.tsx, both revisions: selection state and the modals   *)
(* ===================================================================== *)

Module DepositTableState.
Import AssetTable.

(** The [useState] cells of [DepositTable]; [balances] is the record the
    balance cells report into. *)
Record State := {
  isModalOpen : bool;
  isWithdrawModalOpen : bool;
  selectedAsset : option string;
  selectedContract : option string;
  selectedAssetContract : string;
  balances : gmap string string
}.

Definition initialState : State := {|
  isModalOpen := false;
  isWithdrawModalOpen := false;
  selectedAsset := None;
  selectedContract := None;
  selectedAssetContract := "";
  balances := ∅
|}.

(** [setBalances(prev => ({ ...prev, [tokenAddress]: balance }))] *)
Definition handleBalanceChange (tokenAddress balance : string) (s : State)
  : State := {|
  isModalOpen := isModalOpen s;
  isWithdrawModalOpen := isWithdrawModalOpen s;
  selectedAsset := selectedAsset s;
  selectedContract := selectedContract s;
  selectedAssetContract := selectedAssetContract s;
  balances := <[tokenAddress := balance]> (balances s)
|}.

Definition handleOpenModal (assetName houseOfReserveContract assetContract
    : string) (s : State) : State := {|
  isModalOpen := true;
  isWithdrawModalOpen := isWithdrawModalOpen s;
  selectedAsset := Some assetName;
  selectedContract := Some houseOfReserveContract;
  selectedAssetContract := assetContract;
  balances := balances s
|}.

Definition handleCloseModal (s : State) : State := {|
  isModalOpen := false;
  isWithdrawModalOpen := isWithdrawModalOpen s;
  selectedAsset := None;
  selectedContract := None;
  selectedAssetContract := "";
  balances := balances s
|}.

Definition handleOpenWithdrawModal (assetName houseOfReserveContract
    assetContract : string) (s : State) : State := {|
  isModalOpen := isModalOpen s;
  isWithdrawModalOpen := true;
  selectedAsset := Some assetName;
  selectedContract := Some houseOfReserveContract;
  selectedAssetContract := assetContract;
  balances := balances s
|}.

Definition handleCloseWithdrawModal (s : State) : State := {|
  isModalOpen := isModalOpen s;
  isWithdrawModalOpen := false;
  selectedAsset := None;
  selectedContract := None;
  selectedAssetContract := "";
  balances := balances s
|}.

(** The props [DepositModal] is rendered with in both revisions, and
    [WithdrawModal] in [DepositTable.tsx]. *)
Record ModalProps := {
  assetName : string;
  houseOfReserveContractProp : string;
  assetContractProp : string
}.

(** [flag && selectedAsset && selectedContract && <Modal ... />]: an empty
    string is falsy. *)
Definition modal (flag : bool) (s : State) : option ModalProps :=
  match selectedAsset s, selectedContract s with
  | Some a, Some c =>
      if flag && SupplyModal.truthyString a && SupplyModal.truthyString c
      then Some {| assetName := a; houseOfReserveContractProp := c;
                   assetContractProp := selectedAssetContract s |}
      else None
  | _, _ => None
  end.

(** [<DepositModal ... />], the same element in both revisions. *)
Definition depositModal (s : State) : option ModalProps :=
  modal (isModalOpen s) s.

(** [<WithdrawModal ... />] of [DepositTable.tsx], which passes
    [assetContract={selectedAssetContract}]. *)
Definition withdrawModal (s : State) : option ModalProps :=
  modal (isWithdrawModalOpen s) s.

(** The translated revision renders [WithdrawModal] without the
    [assetContract] prop. *)
Record WithdrawModalProps := {
  withdrawAssetName : string;
  withdrawHouseOfReserveContract : string
}.

(** [<WithdrawModal ... />] of the translated revision. *)
Definition translatedWithdrawModal (s : State) : option WithdrawModalProps :=
  match selectedAsset s, selectedContract s with
  | Some a, Some c =>
      if isWithdrawModalOpen s && SupplyModal.truthyString a
         && SupplyModal.truthyString c
      then Some {| withdrawAssetName := a;
                   withdrawHouseOfReserveContract := c |}
      else None
  | _, _ => None
  end.

(** What the user and the balance cells can do to the table. *)
Inductive Event :=
| ClickDeposit (row : Row)
| ClickWithdraw (row : Row)
| CloseDeposit
| CloseWithdraw
| BalanceChange (tokenAddress balance : string).

Definition step (s : State) (ev : Event) : State :=
  match ev with
  | ClickDeposit row =>
      let '(n, r, a) := depositArgs row in handleOpenModal n r a s
  | ClickWithdraw row =>
      let '(n, r, a) := withdrawArgs row in handleOpenWithdrawModal n r a s
  | CloseDeposit => handleCloseModal s
  | CloseWithdraw => handleCloseWithdrawModal s
  | BalanceChange t b => handleBalanceChange t b s
  end.

End DepositTableState.

(* ===================================================================== *)
(** * The lending page container: sections                                *)
(* ===================================================================== *)

Module LendingPage.

(** [a + b] on numbers. *)
Definition add (a b : JS.number) : JS.number := SFadd JS.prec JS.emax a b.

Record State := {
  isYourSuppliesVisible : bool;
  isAssetsToSupplyVisible : bool;
  isYourBorrowsVissible : bool;
  isAssetsToBorrowVisible : bool;
  allBalancesZero : bool;
  refreshKey : JS.number;
  suppliesTotalBalance : JS.number;
  borrowsTotalBalance : JS.number
}.

Definition initialState : State := {|
  isYourSuppliesVisible := true;
  isAssetsToSupplyVisible := true;
  isYourBorrowsVissible := true;
  isAssetsToBorrowVisible := true;
  allBalancesZero := true;
  refreshKey := JS.zero;
  suppliesTotalBalance := JS.zero;
  borrowsTotalBalance := JS.zero
|}.

(** The four chevron buttons, the refresh button, and the setters the
    children call. *)
Inductive Event :=
| ToggleYourSupplies
| ToggleAssetsToSupply
| ToggleYourBorrows
| ToggleAssetsToBorrow
| RefreshAllData
| SetAllBalancesZero (b : bool)
| SetSuppliesTotalBalance (x : JS.number)
| SetBorrowsTotalBalance (x : JS.number).

(** The sections of the page below the header; a child component is
    mounted with the refresh key as its [key]. *)
Record Sections := {
  yourSupplies : option JS.number;
  assetsToSupply : option JS.number;
  assetsToSupplyHint : bool;
  yourBorrows : option JS.number;
  assetsToBorrow : option JS.number;
  assetsToBorrowHint : bool;
  mustSupplyNotice : bool;
  assetsToBorrowToggle : bool
}.

Definition keyed (shown : bool) (s : State) : option JS.number :=
  if shown then Some (refreshKey s) else None.

Definition sections (s : State) : Sections := {|
  yourSupplies := keyed (isYourSuppliesVisible s) s;
  assetsToSupply := keyed (isAssetsToSupplyVisible s) s;
  assetsToSupplyHint := isAssetsToSupplyVisible s;
  yourBorrows := keyed (isYourBorrowsVissible s) s;
  assetsToBorrow :=
    keyed (isAssetsToBorrowVisible s && negb (allBalancesZero s)) s;
  assetsToBorrowHint :=
    isAssetsToBorrowVisible s && negb (allBalancesZero s);
  mustSupplyNotice := allBalancesZero s;
  assetsToBorrowToggle := negb (allBalancesZero s)
|}.

Definition withVisibility (ys as_ yb ab : bool) (s : State) : State := {|
  isYourSuppliesVisible := ys;
  isAssetsToSupplyVisible := as_;
  isYourBorrowsVissible := yb;
  isAssetsToBorrowVisible := ab;
  allBalancesZero := allBalancesZero s;
  refreshKey := refreshKey s;
  suppliesTotalBalance := suppliesTotalBalance s;
  borrowsTotalBalance := borrowsTotalBalance s
|}.

Definition withData (z : bool) (k sup bor : JS.number) (s : State)
  : State := {|
  isYourSuppliesVisible := isYourSuppliesVisible s;
  isAssetsToSupplyVisible := isAssetsToSupplyVisible s;
  isYourBorrowsVissible := isYourBorrowsVissible s;
  isAssetsToBorrowVisible := isAssetsToBorrowVisible s;
  allBalancesZero := z;
  refreshKey := k;
  suppliesTotalBalance := sup;
  borrowsTotalBalance := bor
|}.

(** The chevron of the borrow section is on the page only while some
    balance is not zero. *)
Definition step (s : State) (ev : Event) : State :=
  match ev with
  | ToggleYourSupplies =>
      withVisibility (negb (isYourSuppliesVisible s))
        (isAssetsToSupplyVisible s) (isYourBorrowsVissible s)
        (isAssetsToBorrowVisible s) s
  | ToggleAssetsToSupply =>
      withVisibility (isYourSuppliesVisible s)
        (negb (isAssetsToSupplyVisible s)) (isYourBorrowsVissible s)
        (isAssetsToBorrowVisible s) s
  | ToggleYourBorrows =>
      withVisibility (isYourSuppliesVisible s) (isAssetsToSupplyVisible s)
        (negb (isYourBorrowsVissible s)) (isAssetsToBorrowVisible s) s
  | ToggleAssetsToBorrow =>
      if assetsToBorrowToggle (sections s)
      then withVisibility (isYourSuppliesVisible s)
             (isAssetsToSupplyVisible s) (isYourBorrowsVissible s)
             (negb (isAssetsToBorrowVisible s)) s
      else s
  | RefreshAllData =>
      withData (allBalancesZero s) (add (refreshKey s) (JS.ofBigInt 1))
        (suppliesTotalBalance s) (borrowsTotalBalance s) s
  | SetAllBalancesZero b =>
      withData b (refreshKey s) (suppliesTotalBalance s)
        (borrowsTotalBalance s) s
  | SetSuppliesTotalBalance x =>
      withData (allBalancesZero s) (refreshKey s) x
        (borrowsTotalBalance s) s
  | SetBorrowsTotalBalance x =>
      withData (allBalancesZero s) (refreshKey s)
        (suppliesTotalBalance s) x s
  end.

(** The header of the page for the totals the children have reported. *)
Definition header (s : State) (a : Lending.AccountRead) : Lending.Header :=
  Lending.header (suppliesTotalBalance s) (borrowsTotalBalance s) a.

End LendingPage.

(* ===================================================================== *)
(** * Properties of number comparison                                     *)
(* ===================================================================== *)

Module JSFacts.
Import JS.

Lemma SFcompare_antisym (x y : number) :
  SFcompare y x = option_map CompOpp (SFcompare x y).
Proof.
  destruct x as [sx | sx | | sx mx ex], y as [sy | sy | | sy my ey];
    simpl; try reflexivity;
    try (destruct sx; reflexivity); try (destruct sy; reflexivity);
    try (destruct sx, sy; reflexivity).
  destruct sx, sy; simpl; try reflexivity;
    rewrite (Z.compare_antisym ex ey);
    destruct (ex ?= ey) eqn:E; simpl; try reflexivity;
    try rewrite CompOpp_involutive; f_equal.
  - exact (Pos.compare_cont_antisym my mx Eq).
  - symmetry. exact (Pos.compare_cont_antisym mx my Eq).
Qed.

(** On numbers, [x > y] fails exactly when [x <= y] holds. *)
Lemma gt_false_iff_le (x y : number) :
  isNaN x = false -> isNaN y = false ->
  gt x y = false <-> le x y = true.
Proof.
  intros Hx Hy. unfold gt, le, SFltb, SFleb.
  rewrite (SFcompare_antisym x y).
  destruct (SFcompare x y) as [[]|] eqn:E; simpl; try (split; congruence).
  destruct x, y; simpl in *; discriminate.
Qed.

(** Nothing exceeds, and nothing is below, a value that is not a number. *)
Lemma gt_NaN_r (x : number) : gt x NaN = false.
Proof. destruct x; reflexivity. Qed.

Lemma le_NaN_r (x : number) : le x NaN = false.
Proof. destruct x; reflexivity. Qed.

(** A number is positive iff it is neither negative nor zero. *)
Lemma positive_iff (x : number) :
  isNaN x = false ->
  gt x zero = true <-> lt x zero = false /\ strictEq x zero = false.
Proof.
  intros Hx. unfold gt, lt, strictEq, SFltb, SFeqb, zero.
  destruct x as [s | s | | s m e]; simpl in *; try discriminate;
    try destruct s; simpl; intuition congruence.
Qed.

End JSFacts.

(* ===================================================================== *)
(** * The supply modal: validation                                        *)
(* ===================================================================== *)

Module SupplyModalFacts.
Import SupplyModal.

(** The amount passes the three tests of [validateAmount]: it reads as a
    number, it is greater than zero, and the test
    [numValue > parseFloat(balance)] fails. *)
Definition accepted (balance value : string) : Prop :=
  let numValue := JS.parseFloat value in
  JS.isNaN numValue = false
  /\ JS.gt numValue JS.zero = true
  /\ JS.gt numValue (JS.parseFloat balance) = false.

(** The amount string parses as a positive number that is less than or
    equal to the wallet balance. *)
Definition acceptable (balance value : string) : Prop :=
  let numValue := JS.parseFloat value in
  JS.isNaN numValue = false
  /\ JS.lt JS.zero numValue = true
  /\ JS.le numValue (JS.parseFloat balance) = true.

Lemma isValid_setErrorMessage m s :
  isValid (setErrorMessage m s) = isValid s.
Proof. reflexivity. Qed.

Lemma validateAmount_isValid balance value s :
  isValid (validateAmount balance value s)
  = negb (JS.isNaN (JS.parseFloat value)
          || JS.lt (JS.parseFloat value) JS.zero)
    && negb (JS.gt (JS.parseFloat value) (JS.parseFloat balance))
    && negb (JS.strictEq (JS.parseFloat value) JS.zero).
Proof.
  unfold validateAmount.
  destruct (JS.isNaN _ || JS.lt _ _); [reflexivity |].
  destruct (JS.gt _ _); [reflexivity |].
  destruct (JS.strictEq _ _); reflexivity.
Qed.

Lemma validateAmount_accepts_iff balance value s :
  isValid (validateAmount balance value s) = true
  <-> accepted balance value.
Proof.
  rewrite validateAmount_isValid. unfold accepted. cbv zeta.
  destruct (JS.isNaN (JS.parseFloat value)) eqn:Hn; simpl.
  - split; [discriminate | intros [H _]; discriminate].
  - rewrite (JSFacts.positive_iff _ Hn).
    destruct (JS.lt _ _), (JS.gt _ (JS.parseFloat balance)),
      (JS.strictEq _ _); simpl; intuition congruence.
Qed.

(** When the balance string reads as a number, the test against it fails
    exactly for the amounts that are less than or equal to it. *)
Lemma accepted_le balance value :
  JS.isNaN (JS.parseFloat balance) = false ->
  accepted balance value <-> acceptable balance value.
Proof.
  intros Hb. unfold accepted, acceptable. cbv zeta.
  split; intros (Hv & Hp & Hle); repeat split; try assumption.
  - apply JSFacts.gt_false_iff_le; assumption.
  - apply JSFacts.gt_false_iff_le; assumption.
Qed.

(** When the balance string does not read as a number, no amount exceeds
    it: every positive amount is accepted. *)
Lemma accepted_without_balance balance value :
  JS.isNaN (JS.parseFloat balance) = true ->
  accepted balance value
  <-> JS.isNaN (JS.parseFloat value) = false
      /\ JS.gt (JS.parseFloat value) JS.zero = true.
Proof.
  intros Hb. unfold accepted. cbv zeta.
  destruct (JS.parseFloat balance); try discriminate.
  rewrite JSFacts.gt_NaN_r. tauto.
Qed.

(** The claim fails for a balance that does not parse.  With the
    balance [""] the amount ["1e300"] is accepted, although it is not
    less than or equal to the balance: no number is. *)
Lemma unreadable_balance_not_a_bound :
  isValid (validateAmount "" "1e300" initialState) = true
  /\ ~ acceptable "" "1e300".
Proof.
  split; [vm_compute; reflexivity |].
  intros (_ & _ & Hle). vm_compute in Hle. discriminate.
Qed.

(** C1, for a wallet balance that parses as a number.  [validateAmount]
    sets the validity flag exactly when the amount string parses as a
    positive number that is less than or equal to the wallet balance.
    With the balance ["10.5"], the amount ["10.5"] is accepted, ["10.6"]
    is rejected with "Amount exceeds wallet balance." and ["0"] is
    rejected with "Amount must be greater than zero.". *)
Theorem validateAmount_spec :
  (forall balance value s,
      JS.isNaN (JS.parseFloat balance) = false ->
      (isValid (validateAmount balance value s) = true
       <-> acceptable balance value))
  /\ (forall s,
        isValid (validateAmount "10.5" "10.5" s) = true
        /\ errorMessage (validateAmount "10.5" "10.5" s) = "")
  /\ (forall s,
        isValid (validateAmount "10.5" "10.6" s) = false
        /\ errorMessage (validateAmount "10.5" "10.6" s)
           = "Amount exceeds wallet balance.")
  /\ (forall s,
        isValid (validateAmount "10.5" "0" s) = false
        /\ errorMessage (validateAmount "10.5" "0" s)
           = "Amount must be greater than zero.").
Proof.
  split.
  - intros balance value s Hb.
    rewrite validateAmount_accepts_iff. apply accepted_le, Hb.
  - repeat split.
Qed.

End SupplyModalFacts.

(* ===================================================================== *)
(** * The supply modal: approval, submission and closing                  *)
(* ===================================================================== *)

Module SupplyFlow.
Import SupplyModal.

Definition isSupplyCall (c : Call) : bool :=
  match c with
  | HandleSupply _ _ _ => true
  | _ => false
  end.

Definition isApproveCall (c : Call) : bool :=
  match c with
  | Approve _ => true
  | _ => false
  end.

Definition isCloseButton (b : Button) : bool :=
  match b with
  | CancelButton | OkCloseButton | ErrorCloseButton => true
  | _ => false
  end.

Lemma handleApproveClick_no_supply r h s :
  existsb isSupplyCall (handleApproveClick r h s) = false.
Proof. unfold handleApproveClick. destruct (truthyOpt _); reflexivity. Qed.

Lemma handleCopyError_calls h :
  existsb isSupplyCall (handleCopyError h) = false
  /\ existsb isApproveCall (handleCopyError h) = false.
Proof.
  unfold handleCopyError.
  destruct (error h) as [m|]; [destruct (truthyString m) |]; split;
    reflexivity.
Qed.

Section WithConverter.

Variable toWeiConverter : JS.number -> N -> option Z.

Local Abbreviation handleSupplyClick :=
  (handleSupplyClick toWeiConverter).
Local Abbreviation onClick := (onClick toWeiConverter).
Local Abbreviation step := (step toWeiConverter).
Local Abbreviation run := (run toWeiConverter).
Local Abbreviation reachable := (reachable toWeiConverter).

(** The handler itself refuses to supply before approval. *)
Lemma handleSupplyClick_unapproved r h s :
  isApproved s = false ->
  existsb isSupplyCall (handleSupplyClick r h s) = false.
Proof.
  intros Ha. unfold SupplyModal.handleSupplyClick. rewrite Ha.
  destruct (walletAddress h) as [w|]; [|reflexivity].
  rewrite andb_false_r. reflexivity.
Qed.

Lemma handleSupplyClick_no_approve r h s :
  existsb isApproveCall (handleSupplyClick r h s) = false.
Proof.
  unfold SupplyModal.handleSupplyClick.
  destruct (walletAddress h) as [w|]; [|reflexivity].
  destruct (truthyString w && isApproved s); [|reflexivity].
  destruct (toWeiConverter _ _); reflexivity.
Qed.

Lemma onClick_unapproved r p h s b :
  isApproved s = false ->
  existsb isSupplyCall (snd (onClick r p h s b)) = false.
Proof.
  intros Ha. destruct b; simpl;
    auto using handleApproveClick_no_supply, handleSupplyClick_unapproved.
  apply handleCopyError_calls.
Qed.

(** A step makes calls only when it is a click on an enabled button. *)
Lemma step_calls c ev :
  snd (step c ev) = [] \/
  exists b v r,
    ev = Click b
    /\ render (props c) (hooks c) (state c) = Some v
    /\ reserve (props c) = Some r
    /\ clickable v b = true
    /\ snd (step c ev)
       = snd (onClick r (props c) (hooks c) (state c) b).
Proof.
  destruct ev as [value | b | | | p' h']; simpl; auto.
  - destruct (render _ _ _) as [[hd [f|] ad ep]|]; simpl; auto.
  - destruct (render _ _ _) as [v|] eqn:Hv; simpl; auto.
    destruct (reserve (props c)) as [r|] eqn:Hr; simpl; auto.
    destruct (clickable v b) eqn:Hc; simpl; auto.
    right. exists b, v, r.
    destruct (onClick r (props c) (hooks c) (state c) b); simpl; auto.
Qed.

Lemma render_form p h s v f :
  render p h s = Some v -> form v = Some f ->
  exists r, reserve p = Some r /\ f = renderForm r p h s.
Proof.
  unfold render. destruct (isOpen p); [|discriminate].
  destruct (reserve p) as [r|]; [|discriminate].
  intros [= <-]. simpl.
  destruct (negb _ && negb _); [|discriminate].
  intros [= <-]. eauto.
Qed.

(** C3. In every reachable state in which the approval flag is false,
    whatever the validity flag: the Supply button is disabled, the
    handler of the button does not call [handleSupply], and no event
    makes the component call [handleSupply]. *)
Theorem no_supply_before_approval c :
  reachable c ->
  isApproved (state c) = false ->
  (forall v f,
      render (props c) (hooks c) (state c) = Some v ->
      form v = Some f -> supplyDisabled f = true)
  /\ (forall r,
        existsb isSupplyCall (handleSupplyClick r (hooks c) (state c))
        = false)
  /\ (forall ev, existsb isSupplyCall (snd (step c ev)) = false).
Proof.
  intros _ Ha. repeat split.
  - intros v f Hv Hf.
    destruct (render_form _ _ _ _ _ Hv Hf) as (r & _ & ->).
    simpl. rewrite Ha. reflexivity.
  - intros r. apply handleSupplyClick_unapproved, Ha.
  - intros ev.
    destruct (step_calls c ev) as [-> | (b & v & r & _ & _ & _ & _ & ->)];
      [reflexivity |].
    apply onClick_unapproved, Ha.
Qed.

(** C10. In every reachable state in which an approval is pending, the
    approval flag is already set, or the amount is invalid: the Approve
    button is disabled and no event makes the component call
    [approve]. *)
Theorem no_approve_when_pending_approved_or_invalid c :
  reachable c ->
  approvePending (hooks c) = true
  \/ isApproved (state c) = true
  \/ isValid (state c) = false ->
  (forall v f,
      render (props c) (hooks c) (state c) = Some v ->
      form v = Some f -> approveDisabled f = true)
  /\ (forall ev, existsb isApproveCall (snd (step c ev)) = false).
Proof.
  intros _ Hc.
  assert (Hdis : forall v f,
             render (props c) (hooks c) (state c) = Some v ->
             form v = Some f -> approveDisabled f = true).
  { intros v f Hv Hf.
    destruct (render_form _ _ _ _ _ Hv Hf) as (r & _ & ->). simpl.
    destruct Hc as [H | [H | H]]; rewrite H; simpl;
      rewrite ?orb_true_r; reflexivity. }
  split; [exact Hdis |].
  intros ev.
  destruct (step_calls c ev)
    as [-> | (b & v & r & _ & Hv & _ & Hcl & ->)]; [reflexivity |].
  destruct b; simpl; try reflexivity.
  - simpl in Hcl. destruct (form v) as [f|] eqn:Hf; [|discriminate].
    rewrite (Hdis v f Hv Hf) in Hcl. discriminate.
  - apply handleSupplyClick_no_approve.
  - apply handleCopyError_calls.
Qed.

(** Within one open session the approval flag, once set, stays set:
    only the three closing buttons clear it. *)
Lemma runEffects_isApproved p h h' s s' :
  isApproved s' = true -> isApproved (runEffects p h h' s s') = true.
Proof.
  intros Ha. unfold runEffects, validateAmount, approvalEffect,
    supplyEffect.
  repeat match goal with
         | |- context [if ?b then _ else _] => destruct b
         end; simpl; auto.
Qed.

Lemma approved_until_closed c ev :
  isApproved (state c) = true ->
  (forall b, ev = Click b -> isCloseButton b = false) ->
  isApproved (state (fst (step c ev))) = true.
Proof.
  intros Ha Hev.
  destruct ev as [value | b | | | p' h']; simpl.
  - destruct (render _ _ _) as [[hd [f|] ad ep]|]; simpl; auto.
    apply runEffects_isApproved, Ha.
  - specialize (Hev b eq_refl).
    destruct (render _ _ _) as [v|]; simpl; auto.
    destruct (reserve (props c)) as [r|]; simpl; auto.
    destruct (clickable v b); simpl; auto.
    destruct b; simpl in *; try discriminate;
      apply runEffects_isApproved; exact Ha.
  - apply runEffects_isApproved, Ha.
  - apply runEffects_isApproved, Ha.
  - apply runEffects_isApproved, Ha.
Qed.

(** No step calls [approve] from a state in which the button is
    disabled. *)
Lemma approve_blocked c :
  approvePending (hooks c) = true
  \/ isApproved (state c) = true
  \/ isValid (state c) = false ->
  forall ev, existsb isApproveCall (snd (step c ev)) = false.
Proof.
  intros Hc ev.
  destruct (step_calls c ev)
    as [-> | (b & v & r & _ & Hv & _ & Hcl & ->)]; [reflexivity |].
  destruct b; simpl; try reflexivity.
  - simpl in Hcl. destruct (form v) as [f|] eqn:Hf; [|discriminate].
    destruct (render_form _ _ _ _ _ Hv Hf) as (r' & _ & ->).
    simpl in Hcl.
    destruct Hc as [H | [H | H]]; rewrite H in Hcl; simpl in Hcl;
      rewrite ?orb_true_r in Hcl; discriminate.
  - apply handleSupplyClick_no_approve.
  - apply handleCopyError_calls.
Qed.

(** Hence after the approval has been recorded, a session that is not
    closed never calls [approve] again. *)
Fixpoint noClose (evs : list Event) : bool :=
  match evs with
  | [] => true
  | Click b :: evs' => negb (isCloseButton b) && noClose evs'
  | _ :: evs' => noClose evs'
  end.

Lemma no_second_approval_in_session evs : forall c,
  reachable c ->
  isApproved (state c) = true ->
  noClose evs = true ->
  existsb isApproveCall (snd (run c evs)) = false.
Proof.
  induction evs as [|ev evs IH]; intros c Hr Ha Hn; [reflexivity |].
  simpl.
  destruct (step c ev) as [c1 calls1] eqn:Hs.
  destruct (SupplyModal.run toWeiConverter c1 evs) as [c2 calls2] eqn:Hrun.
  simpl. rewrite existsb_app.
  pose proof (approve_blocked c (or_intror (or_introl Ha)) ev) as Hstep.
  rewrite Hs in Hstep. simpl in Hstep.
  rewrite Hstep. simpl.
  assert (Hc1 : c1 = fst (step c ev)) by (rewrite Hs; reflexivity).
  assert (Hev : forall b, ev = Click b -> isCloseButton b = false).
  { intros b ->. simpl in Hn. apply andb_prop in Hn as [Hn _].
    destruct (isCloseButton b); [discriminate | reflexivity]. }
  assert (Hn' : noClose evs = true).
  { destruct ev as [| b | | |]; simpl in Hn; auto.
    apply andb_prop in Hn as [_ Hn]. exact Hn. }
  specialize (IH c1). rewrite Hrun in IH. simpl in IH. apply IH; auto.
  - subst c1. apply reachable_step, Hr.
  - subst c1. apply approved_until_closed; auto.
Qed.

(** Whatever state the modal is in, the handler [handleClose] alone
    gives the amount, the validity flag, the error message, the
    submission result, the error flag and the approval flag the values
    they have in the initial state, and notifies the parent.  The effects
    of the render that follows are not part of it. *)
Lemma handleClose_resets s :
  let s' := fst (handleClose s) in
  amount s' = amount initialState
  /\ isValid s' = isValid initialState
  /\ errorMessage s' = errorMessage initialState
  /\ data s' = data initialState
  /\ isError s' = isError initialState
  /\ isApproved s' = isApproved initialState
  /\ snd (handleClose s) = [OnClose].
Proof. repeat split. Qed.

(** Once the effects of the closing render have run, the form state is
    the one of a freshly mounted modal whose hooks report nothing: if
    the amount was not empty, the amount effect validates the empty
    amount as it does on mount. *)
Definition idle : Hooks := {|
  supplyError := false; error := None; supplyData := None;
  walletAddress := None; approveError := false;
  approveSuccess := false; approvePending := false
|}.

Lemma close_then_effects c b v :
  render (props c) (hooks c) (state c) = Some v ->
  clickable v b = true ->
  isCloseButton b = true ->
  let s' := state (fst (step c (Click b))) in
  snd (step c (Click b)) = [OnClose]
  /\ (s' = setShowSuccessIcon (showSuccessIcon (state c)) initialState
      \/ s' = setShowSuccessIcon (showSuccessIcon (state c))
                (mount (props c) idle)).
Proof.
  intros Hv Hc Hb. simpl. rewrite Hv.
  assert (exists r, reserve (props c) = Some r) as [r Hr].
  { unfold render in Hv. destruct (isOpen _); [|discriminate].
    destruct (reserve _); [eauto | discriminate]. }
  rewrite Hr, Hc.
  destruct b; try discriminate; simpl; (split; [reflexivity |]);
    unfold runEffects; simpl; rewrite eqb_reflx;
    assert (Hd : supplyDepsEqb (hooks c) (hooks c) = true)
      by (unfold supplyDepsEqb, optEqb; rewrite !eqb_reflx;
          destruct (supplyData (hooks c)), (error (hooks c));
          rewrite ?String.eqb_refl; reflexivity);
    rewrite Hd; destruct (String.eqb (amount (state c)) ""); auto.
Qed.


End WithConverter.

End SupplyFlow.

(* ===================================================================== *)
(** * The asset tables                                                    *)
(* ===================================================================== *)

Module AssetTableFacts.
Import AssetTable.

Section Registry.

Variable assets : gmap Z (list Asset).

Lemma chainAssets_unregistered chainId :
  assets !! chainId = None -> chainAssets assets chainId = [].
Proof. intros H. unfold chainAssets. rewrite H. reflexivity. Qed.

Lemma chainAssets_registered chainId l :
  assets !! chainId = Some l -> chainAssets assets chainId = l.
Proof. intros H. unfold chainAssets. rewrite H. reflexivity. Qed.

Lemma tableBody_length chainId :
  length (tableBody assets chainId) = length (chainAssets assets chainId).
Proof. unfold tableBody. apply length_map. Qed.

(** The [i]-th row is the row of the [i]-th asset. *)
Lemma tableBody_lookup chainId (i : nat) :
  tableBody assets chainId !! i
  = renderRow <$> (chainAssets assets chainId !! i).
Proof. unfold tableBody. apply list_lookup_fmap. Qed.

End Registry.

(** The chains a registry has a list for. *)
Ltac registered H :=
  repeat (apply lookup_insert_Some in H as [[<- <-] | [_ H]]);
  [.. | apply lookup_singleton_Some in H as [<- <-]].

Lemma DepositTable_registered chainId l :
  DepositTable.assets !! chainId = Some l ->
  chainId = 56 \/ chainId = 137 \/ chainId = 8453.
Proof. intros H. unfold DepositTable.assets in H. registered H; auto. Qed.

Lemma DepositTableTranslated_registered chainId l :
  DepositTableTranslated.assets !! chainId = Some l ->
  chainId = 56 \/ chainId = 137 \/ chainId = 8453.
Proof.
  intros H. unfold DepositTableTranslated.assets in H. registered H; auto.
Qed.

(** C5. In both revisions of the table: for a chain without a registered
    list the looked up list is empty and the table body has no row; for a
    registered chain the body has one row per asset of the list, the
    [i]-th row showing the [i]-th asset.  Rendering the body is a total
    function: it cannot fail. *)
Theorem table_rows_per_chain (chainId : Z) :
  (DepositTable.assets !! chainId = None ->
   DepositTable.chainAssets chainId = []
   /\ DepositTable.tableBody chainId = [])
  /\ (DepositTableTranslated.assets !! chainId = None ->
      DepositTableTranslated.chainAssets chainId = []
      /\ DepositTableTranslated.tableBody chainId = [])
  /\ (forall l,
        DepositTable.assets !! chainId = Some l ->
        DepositTable.chainAssets chainId = l
        /\ length (DepositTable.tableBody chainId) = length l
        /\ forall (i : nat) a,
            l !! i = Some a ->
            DepositTable.tableBody chainId !! i = Some (renderRow a))
  /\ (forall l,
        DepositTableTranslated.assets !! chainId = Some l ->
        DepositTableTranslated.chainAssets chainId = l
        /\ length (DepositTableTranslated.tableBody chainId) = length l
        /\ forall (i : nat) a,
            l !! i = Some a ->
            DepositTableTranslated.tableBody chainId !! i
            = Some (renderRow a)).
Proof.
  unfold DepositTable.chainAssets, DepositTable.tableBody,
    DepositTableTranslated.chainAssets, DepositTableTranslated.tableBody.
  repeat split.
  - apply chainAssets_unregistered, H.
  - unfold tableBody. rewrite (chainAssets_unregistered _ _ H). reflexivity.
  - apply chainAssets_unregistered, H.
  - unfold tableBody. rewrite (chainAssets_unregistered _ _ H). reflexivity.
  - apply chainAssets_registered, H.
  - rewrite tableBody_length, (chainAssets_registered _ _ _ H). reflexivity.
  - intros i a Ha.
    rewrite tableBody_lookup, (chainAssets_registered _ _ _ H), Ha.
    reflexivity.
  - apply chainAssets_registered, H.
  - rewrite tableBody_length, (chainAssets_registered _ _ _ H). reflexivity.
  - intros i a Ha.
    rewrite tableBody_lookup, (chainAssets_registered _ _ _ H), Ha.
    reflexivity.
Qed.

(** Ethereum mainnet has no list; BNB chain, Polygon and Base have one. *)
Example table_rows_mainnet :
  DepositTable.tableBody 1 = [] /\ DepositTableTranslated.tableBody 1 = [].
Proof. split; vm_compute; reflexivity. Qed.

Example table_rows_counts :
  map (fun c => length (DepositTable.tableBody c)) [56; 137; 8453]
  = [2; 5; 2]%nat
  /\ map (fun c => length (DepositTableTranslated.tableBody c))
       [56; 137; 8453]
     = [2; 3; 2]%nat.
Proof. split; vm_compute; reflexivity. Qed.

Definition ltvWithinThreshold (a : Asset) : Prop :=
  exists m t,
    percentOf (maxLTV a) = Some m
    /\ percentOf (liquidationThreshold a) = Some t
    /\ (m <= t)%N.

Ltac within_threshold :=
  repeat match goal with
         | H : _ ∈ _ :: _ |- _ => apply elem_of_cons in H as [-> | H]
         | H : _ ∈ [] |- _ => apply elem_of_nil in H; contradiction
         end;
  (eexists _, _; split; [vm_compute; reflexivity |];
   split; [vm_compute; reflexivity |]; vm_compute; discriminate).

(** C9. In both revisions of the registry, every asset descriptor of every
    chain has a [maxLTV] percentage that is at most its
    [liquidationThreshold] percentage. *)
Theorem maxLTV_le_liquidationThreshold chainId l a :
  DepositTable.assets !! chainId = Some l
  \/ DepositTableTranslated.assets !! chainId = Some l ->
  a ∈ l ->
  ltvWithinThreshold a.
Proof.
  intros [H | H] Ha.
  - unfold DepositTable.assets in H. registered H; within_threshold.
  - unfold DepositTableTranslated.assets in H. registered H;
      within_threshold.
Qed.

End AssetTableFacts.

(* ===================================================================== *)
(** * Your deposits and the page header                                   *)
(* ===================================================================== *)

Module YourDepositsFacts.
Import YourDeposits.

(** A row of the table is one of the entries of the [deposits] literal. *)
Definition isEntry (rd : Reads) (d : Deposit) : Prop :=
  exists i sym reserve asset coin acc collateral,
    entry rd i sym reserve asset coin acc collateral = Some d.

Lemma entry_fields rd i sym reserve asset coin acc collateral d :
  entry rd i sym reserve asset coin acc collateral = Some d ->
  fixed6 (formattedBalances rd) i = Some (amount d)
  /\ fixed6 (formattedMints rd) i = Some (minted d)
  /\ mintingPower d = JS.parseFloat (formattedMintingPower rd).
Proof.
  unfold entry. intros H.
  destruct (fixed6 (formattedBalances rd) i) as [a|]; [|discriminate].
  destruct (fixed6 (formattedMints rd) i) as [m|]; [|discriminate].
  simpl in H. injection H as <-. auto.
Qed.

Lemma chainDeposits_entries rd chainId cd d :
  chainDeposits rd chainId = Some cd -> d ∈ cd -> isEntry rd d.
Proof.
  unfold chainDeposits, deposits. intros H Hd.
  repeat match type of H with
         | context [entry rd ?i ?s ?r ?a ?c ?acc ?col] =>
             let E := fresh "E" in
             destruct (entry rd i s r a c acc col) eqn:E;
             [simpl in H | discriminate]
         end.
  injection H as <-.
  match type of Hd with
  | context [?m !! chainId] => destruct (m !! chainId) as [l|] eqn:Hl
  end; simpl in Hd; [| apply elem_of_nil in Hd; contradiction].
  AssetTableFacts.registered Hl;
    repeat match goal with
           | H : _ ∈ _ :: _ |- _ => apply elem_of_cons in H as [-> | H]
           | H : _ ∈ [] |- _ => apply elem_of_nil in H; contradiction
           end;
    unfold isEntry; eauto 10.
Qed.

Lemma fixed6_noBalances i x :
  fixed6 noBalances i = Some x -> x = JS.zero.
Proof.
  do 5 (destruct i as [|i]; [vm_compute; congruence |]).
  discriminate.
Qed.

Lemma fixed6_is_Some l i :
  (i < length l)%nat -> is_Some (fixed6 l i).
Proof.
  intros Hi. unfold fixed6.
  destruct (lookup_lt_is_Some_2 l i Hi) as [x ->]. simpl. eauto.
Qed.

Lemma formatBatch_length batch :
  match batch with
  | Some l => length (formatBatch batch) = length l
  | None => length (formatBatch batch) = 5%nat
  end.
Proof. destruct batch; simpl; [apply length_map | reflexivity]. Qed.

(** A batch read that is absent, or has at least five results. *)
Definition wellFormed (batch : option (list Z)) : Prop :=
  match batch with
  | Some l => (5 <= length l)%nat
  | None => True
  end.

Lemma formatBatch_wellFormed batch :
  wellFormed batch -> (5 <= length (formatBatch batch))%nat.
Proof.
  pose proof (formatBatch_length batch) as H.
  destruct batch; simpl in *; lia.
Qed.

(** With well-formed batches the render does not throw. *)
Lemma deposits_defined rd :
  wellFormed (batchDeposits rd) -> wellFormed (batchMints rd) ->
  is_Some (deposits rd).
Proof.
  intros Hd Hm.
  apply formatBatch_wellFormed in Hd, Hm.
  assert (He : forall i s r a c acc col,
             (i < 5)%nat -> is_Some (entry rd i s r a c acc col)).
  { intros i s r a c acc col Hi. unfold entry.
    destruct (fixed6_is_Some (formattedBalances rd) i) as [x ->];
      [unfold formattedBalances; lia |].
    destruct (fixed6_is_Some (formattedMints rd) i) as [y ->];
      [unfold formattedMints; lia |].
    simpl. eauto. }
  unfold deposits.
  repeat match goal with
         | |- context [entry rd ?i ?s ?r ?a ?c ?acc ?col] =>
             let x := fresh "x" in
             destruct (He i s r a c acc col) as [x ->]; [lia | simpl]
         end.
  eauto.
Qed.

Lemma render_defined rd chainId :
  wellFormed (batchDeposits rd) -> wellFormed (batchMints rd) ->
  is_Some (render rd chainId).
Proof.
  intros Hd Hm. unfold render, chainDeposits.
  destruct (deposits_defined rd Hd Hm) as [ds ->]. simpl. eauto.
Qed.

Lemma allDepositsZero_noData rd :
  batchDeposits rd = None -> allDepositsZero rd = true.
Proof.
  intros H. unfold allDepositsZero, formattedBalances. rewrite H.
  reflexivity.
Qed.

(** C7. A read without data degrades to zeros and placeholders:
    - without batch deposits every row of every chain has the deposited
      amount [0], and the component shows its placeholder;
    - without batch mints every row has the minted amount [0];
    - without the minting power read every row has the minting power [0];
    - when the batch reads are absent the render does not fail;
    - the page header shows an error notice when the account read fails,
      and zeros for the loan-to-value and the health factor when it has no
      data. *)
Theorem reads_without_data_degrade :
  (forall rd chainId cd d,
      batchDeposits rd = None ->
      chainDeposits rd chainId = Some cd -> d ∈ cd ->
      amount d = JS.zero)
  /\ (forall rd chainId v,
        batchDeposits rd = None ->
        render rd chainId = Some v -> v = NothingDeposited)
  /\ (forall rd chainId cd d,
        batchMints rd = None ->
        chainDeposits rd chainId = Some cd -> d ∈ cd ->
        minted d = JS.zero)
  /\ (forall rd chainId cd d,
        checkRemainingMintingPower rd = None ->
        chainDeposits rd chainId = Some cd -> d ∈ cd ->
        mintingPower d = JS.zero)
  /\ (forall rd chainId,
        batchDeposits rd = None -> batchMints rd = None ->
        is_Some (render rd chainId))
  /\ (forall supplies borrows a,
        Lending.isLoading a = false -> Lending.isError a = true ->
        Lending.header supplies borrows a = Lending.ErrorLoadingData)
  /\ (forall supplies borrows a,
        Lending.isLoading a = false -> Lending.isError a = false ->
        Lending.userAccountData a = None ->
        Lending.header supplies borrows a
        = Lending.ProfileStats (JS.sub supplies borrows) JS.zero JS.zero).
Proof.
  repeat split.
  - intros rd chainId cd d Hn Hcd Hd.
    destruct (chainDeposits_entries _ _ _ _ Hcd Hd)
      as (i & s & r & a & c & acc & col & He).
    apply entry_fields in He as (Ha & _ & _).
    unfold formattedBalances in Ha. rewrite Hn in Ha.
    exact (fixed6_noBalances _ _ Ha).
  - intros rd chainId v Hn. unfold render.
    destruct (chainDeposits rd chainId) as [cd|]; [|discriminate].
    simpl. rewrite (allDepositsZero_noData _ Hn), andb_false_r.
    congruence.
  - intros rd chainId cd d Hn Hcd Hd.
    destruct (chainDeposits_entries _ _ _ _ Hcd Hd)
      as (i & s & r & a & c & acc & col & He).
    apply entry_fields in He as (_ & Hm & _).
    unfold formattedMints in Hm. rewrite Hn in Hm.
    exact (fixed6_noBalances _ _ Hm).
  - intros rd chainId cd d Hn Hcd Hd.
    destruct (chainDeposits_entries _ _ _ _ Hcd Hd)
      as (i & s & r & a & c & acc & col & He).
    apply entry_fields in He as (_ & _ & ->).
    unfold formattedMintingPower. rewrite Hn. reflexivity.
  - intros rd chainId Hd Hm.
    apply render_defined; [rewrite Hd | rewrite Hm]; exact I.
  - intros supplies borrows a Hl He. unfold Lending.header.
    rewrite Hl, He. reflexivity.
  - intros supplies borrows a Hl He Hu. unfold Lending.header.
    rewrite Hl, He, Hu. reflexivity.
Qed.

Definition allZero (l : list JS.number) : Prop :=
  Forall (fun b => JS.strictEq b JS.zero = true) l.

Lemma allDepositsZero_iff rd :
  allDepositsZero rd = true <-> allZero (formattedBalances rd).
Proof.
  unfold allDepositsZero, allZero.
  rewrite forallb_forall, Forall_forall.
  reflexivity.
Qed.

(** Two reads on BNB chain, whose list has two entries: they agree on the
    two slots the chain uses and differ in the fifth slot only. *)
Definition emptyBatch : Reads := {|
  batchDeposits := Some [0; 0; 0; 0; 0];
  batchMints := Some [0; 0; 0; 0; 0];
  checkRemainingMintingPower := None
|}.

Definition fifthSlotOnly : Reads := {|
  batchDeposits := Some [0; 0; 0; 0; 10 ^ 18];
  batchMints := Some [0; 0; 0; 0; 0];
  checkRemainingMintingPower := None
|}.

(** C8. Whenever the component renders, it shows the placeholder instead of
    the table iff the deposit list of the chain is empty or every formatted
    batch balance is zero; the formatted balances are five when the batch
    read is absent or has five results.  On BNB chain, whose list has two
    entries, a balance in the fifth slot alone makes the table appear, with
    both of its rows showing the amount [0]. *)
Theorem placeholder_iff :
  (forall rd chainId cd v,
      chainDeposits rd chainId = Some cd ->
      render rd chainId = Some v ->
      (v = NothingDeposited
       <-> cd = [] \/ allZero (formattedBalances rd))
      /\ (v <> NothingDeposited -> v = DepositsTable cd))
  /\ (forall rd,
        match batchDeposits rd with
        | Some l => length l = 5%nat
        | None => True
        end ->
        length (formattedBalances rd) = 5%nat)
  /\ render emptyBatch 56 = Some NothingDeposited
  /\ (exists d0 d1,
        render fifthSlotOnly 56 = Some (DepositsTable [d0; d1])
        /\ amount d0 = JS.zero /\ amount d1 = JS.zero).
Proof.
  split; [| split; [| split]].
  - intros rd chainId cd v Hcd Hv.
    unfold render in Hv. rewrite Hcd in Hv. simpl in Hv.
    injection Hv as <-. split; [split |].
    + intros Hp. destruct cd as [|d cd]; [left; reflexivity | right].
      simpl in Hp. apply allDepositsZero_iff.
      destruct (allDepositsZero rd); [reflexivity | discriminate].
    + intros [-> | Hz]; [reflexivity |].
      apply allDepositsZero_iff in Hz. rewrite Hz, andb_false_r.
      reflexivity.
    + destruct (_ && _); congruence.
  - intros rd Hl. unfold formattedBalances.
    pose proof (formatBatch_length (batchDeposits rd)) as Hf.
    destruct (batchDeposits rd); congruence.
  - vm_compute. reflexivity.
  - eexists _, _. split; [vm_compute; reflexivity |]. split; reflexivity.
Qed.

End YourDepositsFacts.

(* ===================================================================== *)
(** * The supply modal: conversion of the amount                          *)
(* ===================================================================== *)

Module Conversion.
Import SupplyModal.

(** Modelled from the spec: [hooks/useApproval] is not among the sources.
    The string [handleApproveClick] hands to [approve] is, in the words of
    the handler, in a format compatible with [parseEther]: the hook reads
    it as a decimal number of tokens with 18 decimal places and approves
    that many integer units.  The model reads an optional minus sign,
    digits, and optionally a point and at most 18 digits; [None] stands for
    every other string. *)
Definition parseEther (s : string) : option Z :=
  let cs := list_ascii_of_string s in
  let '(neg, u) :=
    match cs with
    | c :: r => if Ascii.eqb c "-" then (true, r) else (false, cs)
    | [] => (false, cs)
    end in
  let '(ip, r1) := JS.takeDigits u in
  let units (fp : list N) : option Z :=
    if (length fp <=? 18)%nat then
      let v := Z.of_N (JS.digitsToN (ip ++ fp))
               * 10 ^ Z.of_nat (18 - length fp) in
      Some (if neg then - v else v)
    else None in
  match r1 with
  | [] => units []
  | c :: r2 =>
      if Ascii.eqb c "." then
        match JS.takeDigits r2 with
        | (fp, []) => units fp
        | _ => None
        end
      else None
  end.

(** The integer units the approval is for. *)
Definition approvedUnits (r : ReserveData) (amount : string) : option Z :=
  parseEther (adjustedAmount r amount).

(** The integer units a decimal amount string denotes for a token with the
    given number of decimals: the string is a digit string with an optional
    fraction of at most [decimals] digits, read exactly. *)
Definition exactUnits (amount : string) (decimals : N) : option Z :=
  match JS.scanUnsigned (list_ascii_of_string amount) with
  | Some (n, e) =>
      if 0 <=? e + Z.of_N decimals
      then Some (Z.of_N n * 10 ^ (e + Z.of_N decimals))
      else None
  | None => None
  end.

Definition token (d : N) : ReserveData := {|
  symbol := "TKN"; decimals := d; underlyingAsset := "0x0";
  liquidityRate := 0; usageAsCollateralEnabled := true
|}.

End Conversion.

(* ===================================================================== *)
(** * The supply modal: failures of the external calls                    *)
(* ===================================================================== *)

Module SupplyErrors.
Import SupplyModal.

Definition usdc : ReserveData := {|
  symbol := "USDC"; decimals := 6;
  underlyingAsset := "0x3c499c542cEF5E3811e1192ce70d8cC03d5c3359";
  liquidityRate := 0; usageAsCollateralEnabled := true
|}.

Definition opened : Props := {|
  isOpen := true; reserve := Some usdc; balance := "10.5"
|}.

Definition wallet : string := "0x03397CabEAc33EE8FE3Eb79219Df7161C414dF4B".

Definition connected : Hooks := {|
  supplyError := false; error := None; supplyData := None;
  walletAddress := Some wallet; approveError := false;
  approveSuccess := false; approvePending := false
|}.

Definition approving : Hooks := {|
  supplyError := false; error := None; supplyData := None;
  walletAddress := Some wallet; approveError := false;
  approveSuccess := false; approvePending := true
|}.

Definition approved : Hooks := {|
  supplyError := false; error := None; supplyData := None;
  walletAddress := Some wallet; approveError := false;
  approveSuccess := true; approvePending := false
|}.

(** The supply call failed: the provider says "execution reverted". *)
Definition supplyFailed : Hooks := {|
  supplyError := true; error := Some "execution reverted";
  supplyData := None;
  walletAddress := Some wallet; approveError := false;
  approveSuccess := true; approvePending := false
|}.

(** The approval call failed; [useSupply] has nothing to report. *)
Definition approvalFailed : Hooks := {|
  supplyError := false; error := None; supplyData := None;
  walletAddress := Some wallet; approveError := true;
  approveSuccess := false; approvePending := false
|}.

Section WithConverter.

Variable toWeiConverter : JS.number -> N -> option Z.

Local Abbreviation step := (step toWeiConverter).
Local Abbreviation run := (run toWeiConverter).

(** The user enters an amount, approves, supplies, and the supply fails. *)
Definition failedSupply : list Event :=
  [Input "1"; Click ApproveButton; Rerender opened approving;
   Rerender opened approved; Click SupplyButton;
   Rerender opened supplyFailed].

(** The user enters an amount, approves, and the approval fails. *)
Definition failedApproval : list Event :=
  [Input "1"; Click ApproveButton; Rerender opened approving;
   Rerender opened approvalFailed].

(** C6, the submission error.  After the failed supply the component holds
    the provider's message in its state, and renders the heading only: no
    form, no error panel, hence no message and no Copy Error button. *)
Theorem supply_failure_not_surfaced :
  let c := fst (run (mounted opened connected) failedSupply) in
  errorMessage (state c) = "execution reverted"
  /\ isError (state c) = true
  /\ render (props c) (hooks c) (state c)
     = Some {| heading := "Supply USDC"; form := None; allDone := false;
               errorPanel := None |}.
Proof. repeat split. Qed.


(** C6, the approval error.  The error panel shows the message of the
    error object of [useSupply]: after a failed approval it shows no
    message, and Copy Error copies nothing. *)
Lemma approval_failure_panel :
  let c := fst (run (mounted opened connected) failedApproval) in
  (exists v,
      render (props c) (hooks c) (state c) = Some v
      /\ errorPanel v
         = Some {| panelMessage := None; copiedNotice := false |})
  /\ snd (step c (Click CopyErrorButton)) = [].
Proof. split; [eexists; split |]; reflexivity. Qed.


End WithConverter.

End SupplyErrors.

(* ===================================================================== *)
(** * The supply modal: exactness of the conversion                       *)
(* ===================================================================== *)

Module ConversionFacts.
Import SupplyModal Conversion.

(** The conversion of the approval is lossless when it yields the units the
    amount string denotes, for every token with fewer than 18 decimals. *)
Definition lossless : Prop :=
  forall (r : ReserveData) (amount : string) (u : Z),
    (decimals r < 18)%N ->
    exactUnits amount (decimals r) = Some u ->
    approvedUnits r amount = Some u.

(** 4503599627.370497 tokens of 6 decimals are [2 ^ 52 + 1] units; the
    approval is for [2 ^ 52] units. *)
Lemma approval_rounds_large_amount :
  exactUnits "4503599627.370497" 6 = Some 4503599627370497
  /\ approvedUnits (token 6) "4503599627.370497" = Some 4503599627370496.
Proof. split; vm_compute; reflexivity. Qed.

(** The approval is not lossless in that sense. *)
Lemma conversion_not_lossless : ~ lossless.
Proof.
  intros H.
  specialize (H (token 6) "4503599627.370497" 4503599627370497 eq_refl
                (proj1 approval_rounds_large_amount)).
  rewrite (proj2 approval_rounds_large_amount) in H. discriminate.
Qed.

(** [handleSupplyClick] hands [parseFloat(amount)] to the converter: two
    amounts that read as the same number are converted alike, whatever the
    converter does. *)
Lemma supply_conversion_collides toWeiConverter r h s :
  handleSupplyClick toWeiConverter r h (setAmount "9007199254740993" s)
  = handleSupplyClick toWeiConverter r h (setAmount "9007199254740992" s).
Proof. reflexivity. Qed.

(** For a token with 6 decimals the amount ["1.234567"] is approved as
    exactly 1234567 units. *)
Lemma approval_exact_example :
  adjustedAmount (token 6) "1.234567" = "0.000000000001234567"
  /\ approvedUnits (token 6) "1.234567" = Some 1234567
  /\ exactUnits "1.234567" 6 = Some 1234567.
Proof. repeat split; vm_compute; reflexivity. Qed.

(** The modal open on a token with 6 decimals, with a wallet that holds
    five billion tokens. *)
Definition largeBalance : Props := {|
  isOpen := true; reserve := Some (token 6); balance := "5000000000"
|}.

(** C2, where the conversion loses a unit.  At 6 decimals the amount
    ["4503599627.370497"] is 4503599627370497 units, which with 18
    decimal places is written "0.004503599627370497";
    [handleApproveClick] passes "0.004503599627370496" to [approve], and
    so does the modal when that amount is typed and Approve is clicked.
    The amounts ["9007199254.740993"] and ["9007199254.740994"] differ
    by a unit and parse as the same number, so [handleSupplyClick]
    makes the same call for both, whatever the converter is. *)
Theorem conversion_loses_a_unit :
  exactUnits "4503599627.370497" 6 = Some 4503599627370497
  /\ JS.fixedDigits 4503599627370497 18 = "0.004503599627370497"
  /\ adjustedAmount (token 6) "4503599627.370497"
     = "0.004503599627370496"
  /\ (forall toWeiConverter,
        snd (run toWeiConverter (mounted largeBalance SupplyErrors.connected)
               [Input "4503599627.370497"; Click ApproveButton])
        = [Approve "0.004503599627370496"])
  /\ exactUnits "9007199254.740993" 6 = Some 9007199254740993
  /\ exactUnits "9007199254.740994" 6 = Some 9007199254740994
  /\ forall toWeiConverter h s,
      handleSupplyClick toWeiConverter (token 6) h
        (setAmount "9007199254.740993" s)
      = handleSupplyClick toWeiConverter (token 6) h
          (setAmount "9007199254.740994" s).
Proof.
  repeat split; vm_compute; reflexivity.
Qed.

End ConversionFacts.

(* ===================================================================== *)
(** * Instances                                                           *)
(* ===================================================================== *)

Module Instances.
Import SupplyModal SupplyErrors.

(** A converter for the instances: a million units per token. *)
Definition perMillion (x : JS.number) (d : N) : option Z :=
  match x with
  | S754_finite false m e => Some (Zpos m * 2 ^ (e + 20))
  | _ => None
  end.

(** The balance ["10.5"] parses, and the amount ["3"] is within it. *)
Lemma validateAmount_within_balance :
  JS.isNaN (JS.parseFloat "10.5") = false
  /\ isValid (validateAmount "10.5" "3" initialState) = true
  /\ SupplyModalFacts.acceptable "10.5" "3".
Proof.
  assert (Hb : JS.isNaN (JS.parseFloat "10.5") = false) by reflexivity.
  assert (Hv : isValid (validateAmount "10.5" "3" initialState) = true)
    by (vm_compute; reflexivity).
  split; [exact Hb |]. split; [exact Hv |].
  apply (proj1 SupplyModalFacts.validateAmount_spec "10.5" "3"
           initialState Hb).
  exact Hv.
Defined.

(** The modal just opened on USDC: nothing is approved yet. *)
Lemma no_supply_before_approval_mounted :
  reachable perMillion (mounted opened connected)
  /\ isApproved (state (mounted opened connected)) = false
  /\ forall ev,
      existsb SupplyFlow.isSupplyCall
        (snd (step perMillion (mounted opened connected) ev)) = false.
Proof.
  split; [apply reachable_mounted |]. split; [reflexivity |].
  apply (SupplyFlow.no_supply_before_approval perMillion
           (mounted opened connected)).
  - apply reachable_mounted.
  - reflexivity.
Defined.

(** The modal while an approval is pending. *)
Lemma no_approve_while_pending :
  reachable perMillion (mounted opened approving)
  /\ approvePending (hooks (mounted opened approving)) = true
  /\ forall ev,
      existsb SupplyFlow.isApproveCall
        (snd (step perMillion (mounted opened approving) ev)) = false.
Proof.
  split; [apply reachable_mounted |]. split; [reflexivity |].
  apply (SupplyFlow.no_approve_when_pending_approved_or_invalid perMillion
           (mounted opened approving)).
  - apply reachable_mounted.
  - left. reflexivity.
Defined.

(** Ethereum mainnet has no asset list. *)
Lemma table_rows_unregistered_chain :
  DepositTable.assets !! 1 = None
  /\ DepositTable.chainAssets 1 = []
  /\ DepositTable.tableBody 1 = [].
Proof.
  split; [vm_compute; reflexivity |].
  apply (proj1 (AssetTableFacts.table_rows_per_chain 1)).
  vm_compute. reflexivity.
Defined.

(** MATICX on Polygon: 60% against 85%. *)
Definition maticx : AssetTable.Asset := {|
  AssetTable.name := "MATICX"; AssetTable.maxLTV := "60%";
  AssetTable.liquidationThreshold := "85%";
  AssetTable.houseOfReserveContract :=
    "0x102dda5f4621a08dafD327f29f9c815f851846dC";
  AssetTable.assetContract := "0xfa68fb4628dff1028cfec22b4162fccd0d45efb6"
|}.

Lemma maticx_within_threshold :
  AssetTableFacts.ltvWithinThreshold maticx.
Proof.
  apply (AssetTableFacts.maxLTV_le_liquidationThreshold 137
           (DepositTable.chainAssets 137) maticx).
  - left. vm_compute. reflexivity.
  - vm_compute. do 2 apply list_elem_of_further. apply list_elem_of_here.
Defined.

(** Polygon with no read having data. *)
Definition noData : YourDeposits.Reads := {|
  YourDeposits.batchDeposits := None;
  YourDeposits.batchMints := None;
  YourDeposits.checkRemainingMintingPower := None
|}.

Lemma no_data_placeholder :
  YourDeposits.batchDeposits noData = None
  /\ YourDeposits.render noData 137 = Some YourDeposits.NothingDeposited.
Proof.
  split; [reflexivity |].
  destruct YourDepositsFacts.reads_without_data_degrade
    as (_ & Hplaceholder & _ & _ & Hdefined & _).
  destruct (Hdefined noData 137 eq_refl eq_refl) as [v Hv].
  rewrite Hv. rewrite (Hplaceholder noData 137 v eq_refl Hv). reflexivity.
Defined.

(** BNB chain with a balance in the fifth slot only. *)
Lemma fifth_slot_shows_table :
  exists cd,
    YourDeposits.chainDeposits YourDepositsFacts.fifthSlotOnly 56 = Some cd
    /\ YourDeposits.render YourDepositsFacts.fifthSlotOnly 56
       = Some (YourDeposits.DepositsTable cd).
Proof.
  destruct (YourDeposits.chainDeposits YourDepositsFacts.fifthSlotOnly 56)
    as [cd|] eqn:Hcd; [| vm_compute in Hcd; discriminate].
  exists cd. split; [reflexivity |].
  destruct (YourDeposits.render YourDepositsFacts.fifthSlotOnly 56)
    as [v|] eqn:Hv; [| vm_compute in Hv; discriminate].
  f_equal.
  apply (proj2 (proj1 YourDepositsFacts.placeholder_iff
                  YourDepositsFacts.fifthSlotOnly 56 cd v Hcd Hv)).
  vm_compute in Hv. injection Hv as <-. discriminate.
Defined.

End Instances.


(* ===================================================================== *)
(** * The supply modal: further properties of the handlers               *)
(* ===================================================================== *)

Module SupplyModalMore.
Import SupplyModal.

(** No number exceeds itself. *)
Lemma gt_irrefl (x : JS.number) : JS.gt x x = false.
Proof.
  unfold JS.gt, SFltb.
  destruct x as [s | s | | s m e]; simpl; try reflexivity;
    try (destruct s; reflexivity).
  destruct s; rewrite Z.compare_refl;
    rewrite (Pos.compare_cont_refl m Eq); reflexivity.
Qed.

(** The amount string reads as a positive number. *)
Definition positiveAmount (value : string) : Prop :=
  JS.isNaN (JS.parseFloat value) = false
  /\ JS.gt (JS.parseFloat value) JS.zero = true.

Lemma validateAmount_valid_iff balance value s :
  isValid (validateAmount balance value s) = true
  <-> positiveAmount value
      /\ JS.gt (JS.parseFloat value) (JS.parseFloat balance) = false.
Proof.
  rewrite SupplyModalFacts.validateAmount_accepts_iff.
  unfold SupplyModalFacts.accepted, positiveAmount. cbv zeta. tauto.
Qed.

(** When the balance string does not read as a number, the comparison
    with it never rejects: every amount that reads as a positive number,
    however large, is accepted. *)
Theorem unreadable_balance_accepts_every_positive_amount balance value s :
  JS.isNaN (JS.parseFloat balance) = true ->
  isValid (validateAmount balance value s) = true <-> positiveAmount value.
Proof.
  intros Hb. rewrite validateAmount_valid_iff.
  destruct (JS.parseFloat balance); try discriminate.
  rewrite JSFacts.gt_NaN_r. tauto.
Qed.

Lemma unreadable_balance_instance :
  JS.isNaN (JS.parseFloat "") = true
  /\ isValid (validateAmount "" "1e300" initialState) = true.
Proof.
  split; [reflexivity |].
  apply (unreadable_balance_accepts_every_positive_amount "" "1e300").
  - reflexivity.
  - split; vm_compute; reflexivity.
Defined.

(** Validation writes the validity flag and the error message only. *)
Lemma validateAmount_frame balance value s :
  let s' := validateAmount balance value s in
  amount s' = amount s /\ data s' = data s /\ isError s' = isError s
  /\ showSuccessIcon s' = showSuccessIcon s
  /\ isApproved s' = isApproved s.
Proof.
  unfold validateAmount.
  destruct (JS.isNaN _ || JS.lt _ _); [repeat split |].
  destruct (JS.gt _ _); [repeat split |].
  destruct (JS.strictEq _ _); repeat split.
Qed.

Lemma supplyDepsEqb_refl h : supplyDepsEqb h h = true.
Proof.
  unfold supplyDepsEqb, optEqb. rewrite !eqb_reflx.
  destruct (supplyData h), (error h); rewrite ?String.eqb_refl; reflexivity.
Qed.

(** The effects after a handler that changed the state only. *)
Lemma runEffects_same_hooks p h s s' :
  runEffects p h h s s'
  = if String.eqb (amount s) (amount s') then s'
    else validateAmount (balance p) (amount s') s'.
Proof.
  unfold runEffects. rewrite eqb_reflx, supplyDepsEqb_refl. reflexivity.
Qed.

Section WithConverter.

Variable toWeiConverter : JS.number -> N -> option Z.

Local Abbreviation step := (step toWeiConverter).
Local Abbreviation run := (run toWeiConverter).

(** MAX.  With the form on the page and an amount other than the balance,
    clicking MAX enters the balance, and the amount is then valid exactly
    when the balance reads as a positive number. *)
Theorem max_click_valid_iff_positive_balance c v f :
  render (props c) (hooks c) (state c) = Some v ->
  form v = Some f ->
  amount (state c) <> balance (props c) ->
  let c' := fst (step c (Click MaxLink)) in
  amount (state c') = balance (props c)
  /\ snd (step c (Click MaxLink)) = []
  /\ (isValid (state c') = true <-> positiveAmount (balance (props c))).
Proof.
  intros Hv Hf Hne. cbn [SupplyModal.step]. rewrite Hv.
  destruct (SupplyFlow.render_form _ _ _ _ _ Hv Hf) as (r & Hr & _).
  rewrite Hr. cbn [clickable]. rewrite Hf.
  cbn [onClick handleMaxClick withState fst snd state props hooks].
  rewrite runEffects_same_hooks. unfold handleMaxClick.
  cbn [amount setAmount].
  destruct (String.eqb_spec (amount (state c)) (balance (props c)))
    as [E | _]; [contradiction |].
  split; [apply validateAmount_frame |]. split; [reflexivity |].
  rewrite validateAmount_valid_iff, gt_irrefl. tauto.
Qed.

(** What it takes for the form to be on the page. *)
Lemma form_shown p h s v f :
  render p h s = Some v -> form v = Some f ->
  isOpen p = true /\ truthyOpt (data s) = false /\ isError s = false
  /\ exists r, reserve p = Some r /\ f = renderForm r p h s.
Proof.
  unfold render. destruct (isOpen p); [|discriminate].
  destruct (reserve p) as [r|]; [|discriminate].
  intros [= <-]. cbn [form].
  destruct (truthyOpt (data s)), (isError s); cbn; try discriminate.
  intros [= <-]. repeat split. eexists; split; reflexivity.
Qed.

(** A re-render with new props or new hook results, in particular with a
    new wallet balance, does not validate again: the amount and the
    validity flag stay as they were, and nothing is called. *)
Theorem rerender_keeps_validity c p' h' :
  let c' := fst (step c (Rerender p' h')) in
  amount (state c') = amount (state c)
  /\ isValid (state c') = isValid (state c)
  /\ snd (step c (Rerender p' h')) = [].
Proof.
  cbn [SupplyModal.step fst snd state]. unfold runEffects.
  rewrite String.eqb_refl.
  unfold approvalEffect, supplyEffect.
  repeat match goal with
         | |- context [if ?b then _ else _] => destruct b
         end; repeat split.
Qed.

(** Every call of [handleSupply] comes from a click on Supply in an open
    modal whose form is on the page, with the approval flag and the
    validity flag set and a wallet connected; it supplies the underlying
    asset of the reserve, for the amount the converter makes of
    [parseFloat(amount)] and the decimals of the reserve, from that
    wallet. *)
Theorem supply_call_conditions c ev asset amountInWei wallet :
  In (HandleSupply asset amountInWei wallet) (snd (step c ev)) ->
  ev = Click SupplyButton
  /\ isOpen (props c) = true
  /\ isApproved (state c) = true
  /\ isValid (state c) = true
  /\ truthyOpt (data (state c)) = false
  /\ isError (state c) = false
  /\ walletAddress (hooks c) = Some wallet
  /\ truthyString wallet = true
  /\ exists r,
       reserve (props c) = Some r
       /\ asset = underlyingAsset r
       /\ toWeiConverter (JS.parseFloat (amount (state c))) (decimals r)
          = Some amountInWei.
Proof.
  intros Hin.
  destruct (SupplyFlow.step_calls toWeiConverter c ev)
    as [E | (b & v & r & -> & Hv & Hr & Hcl & E)];
    rewrite E in Hin; [destruct Hin |].
  destruct b; cbn [onClick snd] in Hin.
  - destruct Hin.
  - unfold handleApproveClick in Hin.
    destruct (truthyOpt _); cbn in Hin; intuition discriminate.
  - cbn [clickable] in Hcl.
    destruct (form v) as [f|] eqn:Hf; [|discriminate].
    destruct (form_shown _ _ _ _ _ Hv Hf)
      as (Ho & Hd & He & r' & Hr' & ->).
    cbn [renderForm supplyDisabled] in Hcl.
    destruct (isApproved (state c)) eqn:Ha; [|discriminate].
    destruct (isValid (state c)) eqn:Hval; [|discriminate].
    unfold SupplyModal.handleSupplyClick in Hin. rewrite Ha in Hin.
    destruct (walletAddress (hooks c)) as [w|];
      [|cbn in Hin; intuition discriminate].
    destruct (truthyString w) eqn:Hw;
      [|cbn in Hin; intuition discriminate].
    cbn [andb] in Hin.
    destruct (toWeiConverter _ _) as [wei|] eqn:Hwei;
      [|cbn in Hin; intuition discriminate].
    destruct Hin as [[= <- <- <-] | []].
    repeat split; auto. exists r. auto.
  - cbn in Hin. intuition discriminate.
  - cbn in Hin. intuition discriminate.
  - unfold handleCopyError in Hin.
    destruct (error (hooks c)) as [m|]; [destruct (truthyString m) |];
      cbn in Hin; intuition discriminate.
  - cbn in Hin. intuition discriminate.
Qed.

(** Every call of [approve] comes from a click on Approve in an open modal
    whose form is on the page, with a valid amount, no approval pending or
    recorded and a wallet connected; its argument is the adjusted
    amount. *)
Theorem approve_call_conditions c ev adjusted :
  In (Approve adjusted) (snd (step c ev)) ->
  ev = Click ApproveButton
  /\ isOpen (props c) = true
  /\ isValid (state c) = true
  /\ approvePending (hooks c) = false
  /\ isApproved (state c) = false
  /\ truthyOpt (walletAddress (hooks c)) = true
  /\ exists r,
       reserve (props c) = Some r
       /\ adjusted = adjustedAmount r (amount (state c)).
Proof.
  intros Hin.
  destruct (SupplyFlow.step_calls toWeiConverter c ev)
    as [E | (b & v & r & -> & Hv & Hr & Hcl & E)];
    rewrite E in Hin; [destruct Hin |].
  destruct b; cbn [onClick snd] in Hin.
  - destruct Hin.
  - cbn [clickable] in Hcl.
    destruct (form v) as [f|] eqn:Hf; [|discriminate].
    destruct (form_shown _ _ _ _ _ Hv Hf)
      as (Ho & Hd & He & r' & Hr' & ->).
    cbn [renderForm approveDisabled] in Hcl.
    destruct (isValid (state c)) eqn:Hval; [|discriminate].
    destruct (approvePending (hooks c)) eqn:Hp; [discriminate |].
    destruct (isApproved (state c)) eqn:Ha; [discriminate |].
    unfold handleApproveClick in Hin.
    destruct (truthyOpt (walletAddress (hooks c))) eqn:Hw;
      [|destruct Hin].
    destruct Hin as [[= <-] | []].
    repeat split; auto. exists r. auto.
  - unfold SupplyModal.handleSupplyClick in Hin.
    destruct (walletAddress (hooks c)) as [w|];
      [|cbn in Hin; intuition discriminate].
    destruct (truthyString w && isApproved (state c));
      [|cbn in Hin; intuition discriminate].
    destruct (toWeiConverter _ _); cbn in Hin; intuition discriminate.
  - cbn in Hin. intuition discriminate.
  - cbn in Hin. intuition discriminate.
  - unfold handleCopyError in Hin.
    destruct (error (hooks c)) as [m|]; [destruct (truthyString m) |];
      cbn in Hin; intuition discriminate.
  - cbn in Hin. intuition discriminate.
Qed.

(** Copy Error writes to the clipboard the very message the error panel
    shows; when the panel shows none, or an empty one, nothing is written.
    The state does not change. *)
Theorem copy_error_copies_panel_message c v ep :
  render (props c) (hooks c) (state c) = Some v ->
  errorPanel v = Some ep ->
  snd (step c (Click CopyErrorButton))
  = match panelMessage ep with
    | Some m => if truthyString m then [ClipboardWriteText m] else []
    | None => []
    end
  /\ state (fst (step c (Click CopyErrorButton))) = state c.
Proof.
  intros Hv Hep. cbn [SupplyModal.step]. rewrite Hv.
  assert (exists r, reserve (props c) = Some r) as [r Hr].
  { unfold render in Hv. destruct (isOpen _); [|discriminate].
    destruct (reserve _); [eauto | discriminate]. }
  rewrite Hr. cbn [clickable]. rewrite Hep.
  cbn [onClick withState fst snd state].
  rewrite runEffects_same_hooks, String.eqb_refl.
  split; [|reflexivity].
  unfold handleCopyError.
  unfold render in Hv. destruct (isOpen _); [|discriminate].
  rewrite Hr in Hv. injection Hv as <-. cbn [errorPanel] in Hep.
  destruct (approveError (hooks c)); [|discriminate].
  injection Hep as <-. reflexivity.
Qed.

(** Typing an amount other than the present one, with the form on the
    page, stores it and validates it. *)
Lemma input_step c v f value :
  render (props c) (hooks c) (state c) = Some v ->
  form v = Some f ->
  value <> amount (state c) ->
  step c (Input value)
  = ({| props := props c; hooks := hooks c;
        state := validateAmount (balance (props c)) value
                   (setAmount value (state c)) |}, []).
Proof.
  intros Hv Hf Hne. cbn [SupplyModal.step]. rewrite Hv.
  destruct v as [hd fo ad ep]. cbn [form] in Hf. subst fo.
  unfold withState, handleChange. rewrite runEffects_same_hooks.
  cbn [amount setAmount].
  destruct (String.eqb_spec (amount (state c)) value) as [E | _];
    [congruence | reflexivity].
Qed.

(** The approval is not bound to the amount it was given for.  In a state
    with the approval recorded, the form on the page and a wallet
    connected, entering another amount that passes the validation
    against the balance and clicking Supply supplies the new amount. *)
Theorem supply_after_changing_approved_amount c v f r wallet value wei :
  render (props c) (hooks c) (state c) = Some v ->
  form v = Some f ->
  reserve (props c) = Some r ->
  isApproved (state c) = true ->
  walletAddress (hooks c) = Some wallet ->
  truthyString wallet = true ->
  value <> amount (state c) ->
  SupplyModalFacts.accepted (balance (props c)) value ->
  toWeiConverter (JS.parseFloat value) (decimals r) = Some wei ->
  snd (run c [Input value; Click SupplyButton])
  = [HandleSupply (underlyingAsset r) wei wallet].
Proof.
  intros Hv Hf Hr Ha Hw Hwt Hne Hacc Hwei.
  destruct (form_shown _ _ _ _ _ Hv Hf) as (Ho & Hd & He & _ & _ & _).
  cbn [SupplyModal.run]. rewrite (input_step c v f value Hv Hf Hne).
  set (s1 := validateAmount (balance (props c)) value
               (setAmount value (state c))).
  destruct (validateAmount_frame (balance (props c)) value
              (setAmount value (state c)))
    as (Ham & Hdat & Herr & _ & Happ).
  fold s1 in Ham, Hdat, Herr, Happ. cbn in Ham, Hdat, Herr, Happ.
  assert (Hval : isValid s1 = true)
    by (apply SupplyModalFacts.validateAmount_accepts_iff, Hacc).
  cbn [SupplyModal.step props hooks state].
  unfold render. rewrite Ho, Hr, Hdat, Herr, Hd, He.
  cbn [negb andb clickable form renderForm supplyDisabled].
  rewrite Happ, Ha, Hval. cbn [negb orb onClick].
  unfold SupplyModal.handleSupplyClick.
  rewrite Hw, Hwt, Happ, Ha, Ham. cbn [andb]. rewrite Hwei.
  reflexivity.
Qed.

End WithConverter.

End SupplyModalMore.


(* ===================================================================== *)
(** * The deposit table: selection, modals and reported balances         *)
(* ===================================================================== *)

Module DepositTableStateFacts.
Import AssetTable DepositTableState.

Fixpoint run (s : State) (evs : list Event) : State :=
  match evs with
  | [] => s
  | ev :: evs' => run (step s ev) evs'
  end.

(** The balance last reported for a token, if any. *)
Fixpoint lastReport (token : string) (evs : list Event) : option string :=
  match evs with
  | [] => None
  | BalanceChange t b :: evs' =>
      match lastReport token evs' with
      | Some b' => Some b'
      | None => if String.eqb t token then Some b else None
      end
  | _ :: evs' => lastReport token evs'
  end.

Lemma step_balances s ev token :
  balances (step s ev) !! token
  = match ev with
    | BalanceChange t b =>
        if String.eqb t token then Some b else balances s !! token
    | _ => balances s !! token
    end.
Proof.
  destruct ev as [row | row | | | t b]; cbn [step];
    try (destruct (depositArgs row) as [[? ?] ?]);
    try (destruct (withdrawArgs row) as [[? ?] ?]); try reflexivity.
  cbn [handleBalanceChange balances].
  destruct (String.eqb_spec t token) as [-> | Hne].
  - apply lookup_insert_eq.
  - apply lookup_insert_ne, Hne.
Qed.

(** Whatever the user does in between, the record of balances holds for
    each token the balance reported last, and for a token never reported
    what it held before. *)
Theorem balances_hold_last_report evs : forall s token,
  balances (run s evs) !! token
  = match lastReport token evs with
    | Some b => Some b
    | None => balances s !! token
    end.
Proof.
  induction evs as [|ev evs IH]; intros s token; [reflexivity |].
  cbn [run]. rewrite IH, step_balances.
  destruct ev as [row | row | | | t b]; cbn [lastReport]; try reflexivity.
  destruct (lastReport token evs); [reflexivity |].
  destruct (String.eqb t token); reflexivity.
Qed.

(** The two modals are rendered from one selection: when both are on the
    page they show the same asset. *)
Theorem modals_share_selection s m m' :
  depositModal s = Some m -> withdrawModal s = Some m' -> m = m'.
Proof.
  unfold depositModal, withdrawModal, modal.
  destruct (selectedAsset s), (selectedContract s); try discriminate.
  destruct (_ && _ && _); [|discriminate].
  destruct (_ && _ && _); [|discriminate]. congruence.
Qed.

Lemma modals_share_selection_instance :
  let s := run initialState
             [ClickDeposit (renderRow Instances.maticx);
              ClickWithdraw (renderRow Instances.maticx)] in
  exists m, depositModal s = Some m /\ withdrawModal s = Some m.
Proof.
  eexists. split; [reflexivity |].
  match goal with
  | |- withdrawModal ?s = Some ?m =>
      destruct (withdrawModal s) as [m'|] eqn:Hw; [| discriminate Hw];
      f_equal; symmetry;
      apply (modals_share_selection s m m'); [reflexivity | exact Hw]
  end.
Defined.

(** Closing either modal clears the selection, which takes both modals
    off the page, also the one whose flag stays set. *)
Theorem closing_one_modal_hides_both s :
  depositModal (handleCloseModal s) = None
  /\ withdrawModal (handleCloseModal s) = None
  /\ depositModal (handleCloseWithdrawModal s) = None
  /\ withdrawModal (handleCloseWithdrawModal s) = None
  /\ isWithdrawModalOpen (handleCloseModal s) = isWithdrawModalOpen s
  /\ isModalOpen (handleCloseWithdrawModal s) = isModalOpen s.
Proof. repeat split. Qed.

(** Going through the assets of a chain, in either revision. *)
Ltac each_asset H :=
  unfold DepositTable.chainAssets, DepositTableTranslated.chainAssets,
    AssetTable.chainAssets in H;
  match type of H with
  | context [?m !! ?k] =>
      let E := fresh "E" in
      let l := fresh "l" in
      destruct (m !! k) as [l|] eqn:E; simpl in H;
      [ unfold DepositTable.assets, DepositTableTranslated.assets in E;
        AssetTableFacts.registered E
      | apply elem_of_nil in H; contradiction ]
  end;
  repeat match goal with
         | H : _ ∈ _ :: _ |- _ => apply elem_of_cons in H as [-> | H]
         | H : _ ∈ [] |- _ => apply elem_of_nil in H; contradiction
         end.

(** In both revisions, the Deposit button of the row of an asset opens the
    deposit modal for that asset, with its name, its reserve contract and
    its token contract, and the Withdraw button opens the withdraw modal
    for it.  The withdraw modal of [DepositTable.tsx] gets the same three
    props; the one of the translated revision gets the name and the
    reserve contract, and no token contract. *)
Theorem row_buttons_open_modal_of_asset chainId asset s :
  let m := {| assetName := name asset;
              houseOfReserveContractProp := houseOfReserveContract asset;
              assetContractProp := assetContract asset |} in
  (asset ∈ DepositTable.chainAssets chainId ->
   depositModal (step s (ClickDeposit (renderRow asset))) = Some m
   /\ withdrawModal (step s (ClickWithdraw (renderRow asset))) = Some m)
  /\ (asset ∈ DepositTableTranslated.chainAssets chainId ->
      depositModal (step s (ClickDeposit (renderRow asset))) = Some m
      /\ translatedWithdrawModal (step s (ClickWithdraw (renderRow asset)))
         = Some {| withdrawAssetName := name asset;
                   withdrawHouseOfReserveContract :=
                     houseOfReserveContract asset |}).
Proof.
  split; intros H; each_asset H; split; reflexivity.
Qed.

Lemma row_buttons_instance :
  depositModal (step initialState (ClickDeposit (renderRow Instances.maticx)))
  = Some {| assetName := "MATICX";
            houseOfReserveContractProp :=
              "0x102dda5f4621a08dafD327f29f9c815f851846dC";
            assetContractProp :=
              "0xfa68fb4628dff1028cfec22b4162fccd0d45efb6" |}.
Proof.
  refine (proj1 (proj1 (row_buttons_open_modal_of_asset 137
                          Instances.maticx initialState) _)).
  vm_compute. do 2 apply list_elem_of_further. apply list_elem_of_here.
Defined.

(** In both revisions and on every chain the rows of the table have
    pairwise different keys. *)
Theorem row_keys_distinct chainId :
  NoDup (map key (DepositTable.tableBody chainId))
  /\ NoDup (map key (DepositTableTranslated.tableBody chainId)).
Proof.
  unfold DepositTable.tableBody, DepositTableTranslated.tableBody,
    AssetTable.tableBody, AssetTable.chainAssets.
  split.
  - destruct (DepositTable.assets !! chainId) as [l|] eqn:E;
      [| constructor].
    unfold DepositTable.assets in E. AssetTableFacts.registered E;
      cbn; repeat (constructor; [cbn; intuition discriminate |]); constructor.
  - destruct (DepositTableTranslated.assets !! chainId) as [l|] eqn:E;
      [| constructor].
    unfold DepositTableTranslated.assets in E.
    AssetTableFacts.registered E;
      cbn; repeat (constructor; [cbn; intuition discriminate |]); constructor.
Qed.

End DepositTableStateFacts.


(* ===================================================================== *)
(** * Your deposits: when the render fails, and what its rows are        *)
(* ===================================================================== *)

Module YourDepositsMore.
Import YourDeposits YourDepositsFacts.

Lemma fixed6_Some_length l i x :
  fixed6 l i = Some x -> (i < length l)%nat.
Proof.
  unfold fixed6. destruct (l !! i) as [y|] eqn:E; [|discriminate].
  intros _. apply lookup_lt_Some in E. exact E.
Qed.

Lemma wellFormed_of_length batch :
  (5 <= length (formatBatch batch))%nat -> wellFormed batch.
Proof.
  pose proof (formatBatch_length batch) as H.
  destruct batch; cbn [wellFormed]; [lia | constructor].
Qed.

(** The entry of the fifth slot is evaluated on every render. *)
Lemma deposits_Some_wellFormed rd :
  is_Some (deposits rd) ->
  wellFormed (batchDeposits rd) /\ wellFormed (batchMints rd).
Proof.
  intros [ds H]. unfold deposits in H.
  repeat match type of H with
         | context [entry rd ?i ?s ?r ?a ?c ?acc ?col] =>
             let E := fresh "E" in
             destruct (entry rd i s r a c acc col) eqn:E;
             [simpl in H | discriminate]
         end.
  match goal with
  | E : entry rd 4 _ _ _ _ _ _ = Some _ |- _ =>
      apply entry_fields in E as (Ha & Hm & _)
  end.
  apply fixed6_Some_length in Ha, Hm.
  split; apply wellFormed_of_length;
    unfold formattedBalances, formattedMints in *; lia.
Qed.

(** The component renders, on whatever chain, exactly when each of the two
    batch reads is absent or has at least five results.  A batch with
    fewer results makes the render throw, also on the chains that show two
    rows and on the chains that show none. *)
Theorem render_succeeds_iff rd chainId :
  is_Some (render rd chainId)
  <-> wellFormed (batchDeposits rd) /\ wellFormed (batchMints rd).
Proof.
  split.
  - intros [v Hv]. apply deposits_Some_wellFormed.
    unfold render, chainDeposits in Hv.
    destruct (deposits rd); [eauto | discriminate].
  - intros [Hd Hm]. apply render_defined; assumption.
Qed.

Lemma entry_static rd i sym reserve asset coin acc collateral d :
  entry rd i sym reserve asset coin acc collateral = Some d ->
  symbol d = sym /\ assetContract d = asset.
Proof.
  unfold entry.
  destruct (fixed6 (formattedBalances rd) i); [|discriminate].
  destruct (fixed6 (formattedMints rd) i); [|discriminate].
  simpl. intros [= <-]. split; reflexivity.
Qed.

(** The rows of a chain, when the render succeeds, list the assets of the
    deposit table of that chain: the same symbols and the same token
    contracts, in the same order. *)
Lemma chainDeposits_match_table rd chainId cd :
  chainDeposits rd chainId = Some cd ->
  map symbol cd = map AssetTable.name (DepositTable.chainAssets chainId)
  /\ map assetContract cd
     = map AssetTable.assetContract (DepositTable.chainAssets chainId).
Proof.
  unfold chainDeposits, deposits. intros H.
  repeat match type of H with
         | context [entry rd ?i ?s ?r ?a ?c ?acc ?col] =>
             let E := fresh "E" in
             destruct (entry rd i s r a c acc col) eqn:E;
             [simpl in H; apply entry_static in E as [? ?] | discriminate]
         end.
  injection H as <-.
  unfold DepositTable.chainAssets, AssetTable.chainAssets,
    DepositTable.assets.
  match goal with
  | |- context [?m !! chainId] => destruct (m !! chainId) as [l|] eqn:Hl
  end.
  - AssetTableFacts.registered Hl; cbn [default from_option id map];
      repeat match goal with
             | H : symbol _ = _ |- _ => rewrite H; clear H
             | H : assetContract _ = _ |- _ => rewrite H; clear H
             end;
      split; vm_compute; reflexivity.
  - assert (Hn : chainId <> 56 /\ chainId <> 137 /\ chainId <> 8453).
    { repeat split; intros ->; vm_compute in Hl; discriminate. }
    destruct Hn as (H56 & H137 & H8453).
    rewrite lookup_insert_ne, lookup_insert_ne, lookup_singleton_ne
      by congruence.
    split; reflexivity.
Qed.

(** Hence the table, when it is shown, has the rows of the deposit table
    of the chain, and on a chain without registered assets the placeholder
    is shown whatever the balances are. *)
Theorem deposit_rows_match_deposit_table rd chainId v :
  render rd chainId = Some v ->
  match v with
  | DepositsTable rows =>
      map symbol rows
      = map AssetTable.name (DepositTable.chainAssets chainId)
      /\ map assetContract rows
         = map AssetTable.assetContract (DepositTable.chainAssets chainId)
  | NothingDeposited => True
  end
  /\ (DepositTable.assets !! chainId = None -> v = NothingDeposited).
Proof.
  unfold render. destruct (chainDeposits rd chainId) as [cd|] eqn:Hcd;
    [|discriminate].
  simpl. intros [= <-].
  pose proof (chainDeposits_match_table _ _ _ Hcd) as [Hs Ha].
  split.
  - destruct (_ && _); [split; assumption | exact I].
  - intros Hn. unfold DepositTable.chainAssets, AssetTable.chainAssets in Hs.
    rewrite Hn in Hs. cbn in Hs. destruct cd; [reflexivity | discriminate].
Qed.

Lemma deposit_rows_instance :
  exists rows,
    render fifthSlotOnly 56 = Some (DepositsTable rows)
    /\ map symbol rows = ["WETH"; "WBNB"]%string.
Proof.
  destruct (render fifthSlotOnly 56) as [v|] eqn:Hv;
    [| vm_compute in Hv; discriminate].
  pose proof (deposit_rows_match_deposit_table fifthSlotOnly 56 v Hv)
    as [H _].
  destruct v as [rows|]; [| vm_compute in Hv; discriminate].
  exists rows. split; [reflexivity |]. exact (proj1 H).
Defined.

End YourDepositsMore.

(* ===================================================================== *)
(** * The lending page: header fallbacks and the borrow section          *)
(* ===================================================================== *)

Module LendingPageFacts.
Import LendingPage.

Fixpoint run (s : State) (evs : list Event) : State :=
  match evs with
  | [] => s
  | ev :: evs' => run (step s ev) evs'
  end.

Lemma orZero_cases x :
  Lending.orZero x = JS.zero \/ JS.truthy (Lending.orZero x) = true.
Proof.
  unfold Lending.orZero. destruct x as [v|]; [|left; reflexivity].
  destruct (JS.truthy v) eqn:E; [right; exact E | left; reflexivity].
Qed.

(** The loan-to-value and the health factor in the header are never [NaN]
    and never [-0]: each is [0] or a number other than zero, whatever the
    account read returned. *)
Theorem header_stats_are_numbers s a balance netAPY healthFactor :
  header s a = Lending.ProfileStats balance netAPY healthFactor ->
  (netAPY = JS.zero \/ JS.truthy netAPY = true)
  /\ (healthFactor = JS.zero \/ JS.truthy healthFactor = true)
  /\ Lending.isLoading a = false /\ Lending.isError a = false.
Proof.
  unfold header, Lending.header.
  destruct (Lending.isLoading a); [discriminate |].
  destruct (Lending.isError a); [discriminate |].
  intros [= _ <- <-]. repeat split; apply orZero_cases.
Qed.

(** An account read whose loan-to-value is [NaN] and whose health factor
    is [-0]. *)
Definition oddAccount : Lending.AccountRead := {|
  Lending.userAccountData :=
    Some {| Lending.ltv := JS.NaN; Lending.healthFactor := JS.negzero |};
  Lending.isLoading := false;
  Lending.isError := false
|}.

Lemma header_stats_instance :
  header initialState oddAccount
  = Lending.ProfileStats JS.zero JS.zero JS.zero
  /\ (JS.zero = JS.zero \/ JS.truthy JS.zero = true).
Proof.
  split; [reflexivity |].
  apply (header_stats_are_numbers initialState oddAccount JS.zero JS.zero
           JS.zero).
  reflexivity.
Defined.

Definition reportsBalance (ev : Event) : bool :=
  match ev with
  | SetAllBalancesZero false => true
  | _ => false
  end.

Lemma step_keeps_borrow_gate s ev :
  reportsBalance ev = false ->
  allBalancesZero s = true ->
  isAssetsToBorrowVisible s = true ->
  allBalancesZero (step s ev) = true
  /\ isAssetsToBorrowVisible (step s ev) = true.
Proof.
  intros Hev Hz Hvis.
  destruct ev as [| | | | | b | x | x]; cbn [step]; try (split; assumption).
  - unfold sections. cbn [assetsToBorrowToggle]. rewrite Hz. cbn.
    split; assumption.
  - destruct b; [split; [reflexivity | assumption] | discriminate].
Qed.

(** Until a child reports a balance that is not zero, the list of assets
    to borrow is not on the page, its chevron is not on the page, the
    notice asking to supply first is, and the section is still expanded
    for when the list appears. *)
Theorem borrow_list_waits_for_a_balance evs :
  forallb (fun ev => negb (reportsBalance ev)) evs = true ->
  let s := run initialState evs in
  assetsToBorrow (sections s) = None
  /\ assetsToBorrowToggle (sections s) = false
  /\ mustSupplyNotice (sections s) = true
  /\ isAssetsToBorrowVisible s = true.
Proof.
  intros Hevs.
  assert (H : forall s0,
             allBalancesZero s0 = true ->
             isAssetsToBorrowVisible s0 = true ->
             allBalancesZero (run s0 evs) = true
             /\ isAssetsToBorrowVisible (run s0 evs) = true).
  { induction evs as [|ev evs IH]; intros s0 Hz Hvis; [split; assumption |].
    cbn [forallb] in Hevs. apply andb_prop in Hevs as [Hev Hevs].
    cbn [run].
    destruct (step_keeps_borrow_gate s0 ev) as [Hz' Hvis']; auto.
    destruct (reportsBalance ev); [discriminate | reflexivity]. }
  destruct (H initialState eq_refl eq_refl) as [Hz Hvis].
  cbv zeta. unfold sections.
  cbn [assetsToBorrow assetsToBorrowToggle mustSupplyNotice].
  rewrite Hz, Hvis. repeat split.
Qed.

Lemma borrow_list_instance :
  assetsToBorrow
    (sections (run initialState
                 [ToggleAssetsToBorrow; RefreshAllData;
                  SetSuppliesTotalBalance JS.zero]))
  = None.
Proof.
  apply (borrow_list_waits_for_a_balance
           [ToggleAssetsToBorrow; RefreshAllData;
            SetSuppliesTotalBalance JS.zero]).
  reflexivity.
Defined.

Definition isToggle (ev : Event) : bool :=
  match ev with
  | ToggleYourSupplies | ToggleAssetsToSupply | ToggleYourBorrows
  | ToggleAssetsToBorrow => true
  | _ => false
  end.

(** A chevron clicked twice leaves the page as it was. *)
Theorem toggle_twice_restores s ev :
  isToggle ev = true -> step (step s ev) ev = s.
Proof.
  intros Hev. destruct s as [ys as_ yb ab z k sup bor].
  destruct ev; try discriminate; cbn [step]; unfold withVisibility;
    cbn; rewrite ?negb_involutive; try reflexivity.
  destruct z; cbn; rewrite ?negb_involutive; reflexivity.
Qed.

Lemma toggle_twice_instance :
  step (step initialState ToggleYourBorrows) ToggleYourBorrows
  = initialState.
Proof. apply (toggle_twice_restores initialState ToggleYourBorrows).
  reflexivity. Defined.

End LendingPageFacts.


(* ===================================================================== *)
(** * Instances for the supply modal                                      *)
(* ===================================================================== *)

Module SupplySessions.
Import SupplyModal SupplyErrors Instances.

Lemma reachable_run toWeiConverter evs : forall c,
  reachable toWeiConverter c ->
  reachable toWeiConverter (fst (run toWeiConverter c evs)).
Proof.
  induction evs as [|ev evs IH]; intros c Hc; [exact Hc |].
  cbn [run].
  pose proof (IH _ (reachable_step toWeiConverter c ev Hc)) as H.
  destruct (step toWeiConverter c ev) as [c1 calls1]. cbn [fst] in H.
  destruct (run toWeiConverter c1 evs) as [c2 calls2]. exact H.
Qed.

(** USDC, amount 1, approved. *)
Definition approvedSession : Config :=
  fst (run perMillion (mounted opened connected)
         [Input "1"; Click ApproveButton; Rerender opened approving;
          Rerender opened approved]).

(** Both calls failed. *)
Definition bothFailed : Hooks := {|
  supplyError := true; error := Some "execution reverted";
  supplyData := None;
  walletAddress := Some wallet; approveError := true;
  approveSuccess := false; approvePending := false
|}.

Lemma max_click_instance :
  let c' := fst (step perMillion (mounted opened connected)
                   (Click MaxLink)) in
  amount (state c') = "10.5" /\ isValid (state c') = true.
Proof.
  destruct (SupplyModalMore.max_click_valid_iff_positive_balance perMillion
              (mounted opened connected)
              {| heading := "Supply USDC";
                 form := Some (renderForm usdc opened connected
                                 (mount opened connected));
                 allDone := false; errorPanel := None |}
              (renderForm usdc opened connected (mount opened connected)))
    as (Ha & _ & Hv); [reflexivity | reflexivity | discriminate |].
  split; [exact Ha |]. apply Hv. split; vm_compute; reflexivity.
Defined.

Lemma supply_call_instance :
  In (HandleSupply (underlyingAsset usdc) 0 wallet)
     (snd (step perMillion approvedSession (Click SupplyButton)))
  /\ isApproved (state approvedSession) = true
  /\ isValid (state approvedSession) = true.
Proof.
  assert (H : In (HandleSupply (underlyingAsset usdc) 0 wallet)
                (snd (step perMillion approvedSession (Click SupplyButton))))
    by (vm_compute; left; reflexivity).
  split; [exact H |].
  pose proof (SupplyModalMore.supply_call_conditions perMillion
                approvedSession (Click SupplyButton) _ _ _ H)
    as (_ & _ & Ha & Hv & _).
  split; assumption.
Defined.

Lemma approve_call_instance :
  In (Approve "0.000000000001000000")
     (snd (step perMillion
             (fst (step perMillion (mounted opened connected) (Input "1")))
             (Click ApproveButton)))
  /\ isValid (state (fst (step perMillion (mounted opened connected)
                            (Input "1")))) = true.
Proof.
  assert (H : In (Approve "0.000000000001000000")
                (snd (step perMillion
                        (fst (step perMillion (mounted opened connected)
                                (Input "1")))
                        (Click ApproveButton))))
    by (vm_compute; left; reflexivity).
  split; [exact H |].
  exact (proj1 (proj2 (proj2 (SupplyModalMore.approve_call_conditions
                                perMillion _ _ _ H)))).
Defined.

Lemma copy_error_instance :
  snd (step perMillion (mounted opened bothFailed) (Click CopyErrorButton))
  = [ClipboardWriteText "execution reverted"].
Proof.
  exact (proj1 (SupplyModalMore.copy_error_copies_panel_message perMillion
                  (mounted opened bothFailed)
                  {| heading := "Supply USDC"; form := None;
                     allDone := false;
                     errorPanel :=
                       Some {| panelMessage := Some "execution reverted";
                               copiedNotice := false |} |}
                  {| panelMessage := Some "execution reverted";
                     copiedNotice := false |}
                  eq_refl eq_refl)).
Defined.

Lemma supply_changed_amount_instance :
  snd (run perMillion approvedSession [Input "10"; Click SupplyButton])
  = [HandleSupply (underlyingAsset usdc) 0 wallet].
Proof.
  eapply (SupplyModalMore.supply_after_changing_approved_amount perMillion
            approvedSession _ _ usdc wallet "10" 0).
  - vm_compute. reflexivity.
  - reflexivity.
  - reflexivity.
  - reflexivity.
  - reflexivity.
  - reflexivity.
  - vm_compute. discriminate.
  - repeat split; vm_compute; reflexivity.
  - vm_compute. reflexivity.
Defined.

Lemma no_second_approval_instance :
  existsb SupplyFlow.isApproveCall
    (snd (run perMillion approvedSession
            [Click ApproveButton; Input "2"; Click ApproveButton;
             Rerender opened approved; Click ApproveButton]))
  = false.
Proof.
  apply (SupplyFlow.no_second_approval_in_session perMillion).
  - apply reachable_run, reachable_mounted.
  - reflexivity.
  - reflexivity.
Defined.


Lemma close_instance :
  snd (step perMillion approvedSession (Click CancelButton)) = [OnClose]
  /\ state (fst (step perMillion approvedSession (Click CancelButton)))
     = mount opened SupplyFlow.idle.
Proof.
  destruct (SupplyFlow.close_then_effects perMillion approvedSession
              CancelButton
              {| heading := "Supply USDC";
                 form := Some (renderForm usdc opened approved
                                 (state approvedSession));
                 allDone := false; errorPanel := None |}
              eq_refl eq_refl eq_refl) as [Hc _].
  split; [exact Hc | reflexivity].
Defined.




End SupplySessions.

(* ===================================================================== *)
(** * Rounding of the division of two numbers                          *)
(* ===================================================================== *)

Module Rounding.

(** The number of binary digits of a mantissa. *)
Lemma digits2_pos_size p : digits2_pos p = Pos.size p.
Proof. induction p; simpl; congruence. Qed.

Lemma Zdigits2_bounds p :
  2 ^ (Zdigits2 (Zpos p) - 1) <= Zpos p < 2 ^ Zdigits2 (Zpos p).
Proof.
  unfold Zdigits2. rewrite digits2_pos_size.
  pose proof (Pos.size_gt p) as Hgt. pose proof (Pos.size_le p) as Hle.
  apply Pos2Z.pos_lt_pos in Hgt. apply Pos2Z.pos_le_pos in Hle.
  rewrite Pos2Z.inj_pow in Hgt, Hle.
  change (Z.pos p~0) with (2 * Z.pos p) in Hle.
  set (k := Zpos (Pos.size p)) in *.
  assert (Hk : 0 < k) by (unfold k; lia).
  replace k with (k - 1 + 1) in Hle at 1 by lia.
  rewrite Z.pow_add_r in Hle by lia.
  change (2 ^ 1) with 2 in Hle. lia.
Qed.

(** [X / D] lies at [m] with location [l]. *)
Definition inb (m : Z) (l : location) (X D : Z) : Prop :=
  match l with
  | loc_Exact => X = m * D
  | loc_Inexact c =>
      m * D < X < (m + 1) * D /\ (2 * X ?= (2 * m + 1) * D) = c
  end.

Definition inbR (r : shr_record) (X D : Z) : Prop :=
  0 <= shr_m r /\ inb (shr_m r) (loc_of_shr_record r) X D.

Ltac cmp_hyps :=
  repeat match goal with
         | H : _ /\ _ |- _ => destruct H
         | H : (_ ?= _) = Lt |- _ => rewrite Z.compare_lt_iff in H
         | H : (_ ?= _) = Gt |- _ => rewrite Z.compare_gt_iff in H
         | H : (_ ?= _) = Eq |- _ => rewrite Z.compare_eq_iff in H
         end.

Ltac cmp :=
  cmp_hyps;
  repeat split;
  try match goal with
      | |- (_ ?= _) = Lt => apply Z.compare_lt_iff
      | |- (_ ?= _) = Gt => apply Z.compare_gt_iff
      | |- (_ ?= _) = Eq => apply Z.compare_eq_iff
      end.

(** Shifting a mantissa to the right keeps track of where the value
    lies. *)
Lemma shr_1_inbR r X D :
  0 < D -> inbR r X D -> inbR (shr_1 r) X (2 * D).
Proof.
  intros HD [Hm H]. destruct r as [m rb sb].
  unfold inbR, inb in *.
  cbn [shr_m loc_of_shr_record] in *.
  destruct m as [|p|p]; [| |lia].
  - destruct rb, sb; cbn [shr_1 shr_m loc_of_shr_record orb] in *;
      cmp; lia.
  - destruct p as [p|p|]; destruct rb, sb;
      cbn [shr_1 shr_m loc_of_shr_record orb] in *;
      try change (Z.pos p~1) with (2 * Z.pos p + 1) in *;
      try change (Z.pos p~0) with (2 * Z.pos p) in *;
      cmp; lia.
Qed.

Lemma iter_shr_1_inbR X p : forall r D,
  0 < D -> inbR r X D -> inbR (iter_pos shr_1 p r) X (D * 2 ^ Zpos p).
Proof.
  induction p as [p IH | p IH |]; intros r D HD H; cbn [iter_pos].
  - apply shr_1_inbR in H; [|exact HD].
    apply IH in H; [|lia].
    apply IH in H; [|apply Z.mul_pos_pos; [lia | apply Z.pow_pos_nonneg; lia]].
    replace (D * 2 ^ Z.pos p~1) with (2 * D * 2 ^ Z.pos p * 2 ^ Z.pos p);
      [exact H |].
    change (Z.pos p~1) with (2 * Z.pos p + 1).
    rewrite Z.pow_add_r, Z.pow_mul_r, Z.pow_2_r by lia.
    change (2 ^ 1) with 2.
    replace ((2 * 2) ^ Z.pos p) with (2 ^ Z.pos p * 2 ^ Z.pos p)
      by (rewrite <- Z.pow_mul_l; reflexivity).
    ring.
  - apply IH in H; [|exact HD].
    apply IH in H; [|apply Z.mul_pos_pos; [lia | apply Z.pow_pos_nonneg; lia]].
    replace (D * 2 ^ Z.pos p~0) with (D * 2 ^ Z.pos p * 2 ^ Z.pos p);
      [exact H |].
    change (Z.pos p~0) with (2 * Z.pos p).
    rewrite Z.pow_mul_r, Z.pow_2_r by lia.
    replace ((2 * 2) ^ Z.pos p) with (2 ^ Z.pos p * 2 ^ Z.pos p)
      by (rewrite <- Z.pow_mul_l; reflexivity).
    ring.
  - apply shr_1_inbR in H; [|exact HD].
    change (2 ^ 1) with 2. replace (D * 2) with (2 * D) by ring. exact H.
Qed.

Lemma shr_inbR r e n X D :
  0 < D -> 0 <= n -> inbR r X D ->
  snd (shr r e n) = e + n /\ inbR (fst (shr r e n)) X (D * 2 ^ n).
Proof.
  intros HD Hn H. destruct n as [|p|p]; [| |lia]; cbn [shr fst snd].
  - split; [lia |]. rewrite Z.mul_1_r. exact H.
  - split; [reflexivity |]. apply iter_shr_1_inbR; assumption.
Qed.

Lemma shr_record_of_loc_inbR m l X D :
  0 <= m -> inb m l X D -> inbR (shr_record_of_loc m l) X D.
Proof.
  intros Hm H. unfold inbR.
  destruct l as [|[]]; cbn [shr_record_of_loc shr_m loc_of_shr_record];
    split; assumption.
Qed.

Lemma inb_bounds m l X D : inb m l X D -> 0 < D -> m * D <= X < (m + 1) * D.
Proof. destruct l; unfold inb; intros H HD; [subst; lia | lia]. Qed.

(** Rounding to nearest moves the value by at most half a unit. *)
Lemma round_nearest_even_spec m l X D :
  0 < D -> inb m l X D ->
  m <= round_nearest_even m l <= m + 1
  /\ 2 * Z.abs (round_nearest_even m l * D - X) <= D.
Proof.
  intros HD H. destruct l as [|[]]; unfold inb in H;
    cbn [round_nearest_even]; cmp_hyps; try destruct (Z.even m);
    (split; [lia | lia]).
Qed.

Lemma Zdigits2_unique p k :
  2 ^ (k - 1) <= Zpos p < 2 ^ k -> Zdigits2 (Zpos p) = k.
Proof.
  intros [Hl Hu]. pose proof (Zdigits2_bounds p) as [Hl' Hu'].
  set (d := Zdigits2 (Zpos p)) in *.
  assert (Hd : 0 < d) by (unfold d; simpl; lia).
  assert (Hk : 0 < k).
  { destruct (Z.lt_trichotomy 0 k) as [|[<- | Hk0]]; [assumption | |].
    - change (2 ^ 0) with 1 in Hu. lia.
    - rewrite (Z.pow_neg_r 2 k) in Hu by lia. lia. }
  destruct (Z.lt_trichotomy d k) as [Hlt | [Heq | Hgt]]; [| exact Heq |].
  - assert (2 ^ d <= 2 ^ (k - 1)) by (apply Z.pow_le_mono_r; lia). lia.
  - assert (2 ^ k <= 2 ^ (d - 1)) by (apply Z.pow_le_mono_r; lia). lia.
Qed.

Lemma fexp_normal x : -1074 <= x - 53 -> fexp JS.prec JS.emax x = x - 53.
Proof. unfold fexp, emin, JS.prec, JS.emax. lia. Qed.

(** Two readings of one value, at scales [D] and [D * 2 ^ n]. *)
Lemma coarser_mantissa m m1 X D n k :
  0 < D -> 0 <= n -> 0 <= k ->
  m * D <= X < (m + 1) * D ->
  m1 * (D * 2 ^ n) <= X < (m1 + 1) * (D * 2 ^ n) ->
  2 ^ (k + n) <= m < 2 ^ (k + 1 + n) ->
  2 ^ k <= m1 < 2 ^ (k + 1).
Proof.
  intros HD Hn Hk [Hl Hu] [Hl1 Hu1] [Hml Hmu].
  rewrite !Z.pow_add_r in * by lia.
  set (P := 2 ^ n) in *. set (K := 2 ^ k) in *.
  assert (HP : 0 < P) by (apply Z.pow_pos_nonneg; lia).
  assert (HK : 0 < K) by (apply Z.pow_pos_nonneg; lia).
  change (2 ^ 1) with 2 in *.
  assert (H1 : m1 * P < m + 1).
  { apply (Z.mul_lt_mono_pos_r D); [exact HD |].
    replace (m1 * P * D) with (m1 * (D * P)) by ring. lia. }
  assert (H2 : m < (m1 + 1) * P).
  { apply (Z.mul_lt_mono_pos_r D); [exact HD |].
    replace ((m1 + 1) * P * D) with ((m1 + 1) * (D * P)) by ring. lia. }
  split.
  - assert (K * P < (m1 + 1) * P) by lia.
    apply Z.mul_lt_mono_pos_r in H; lia.
  - assert (m1 * P < K * 2 * P) by lia.
    apply Z.mul_lt_mono_pos_r in H; lia.
Qed.

Lemma binary_round_aux_normal m e l X D :
  0 < D -> inb (Zpos m) l X D ->
  53 <= Zdigits2 (Zpos m) ->
  -1074 <= Zdigits2 (Zpos m) + e - 53 ->
  Zdigits2 (Zpos m) + e - 53 < 971 ->
  exists M E,
    binary_round_aux JS.prec JS.emax false (Zpos m) e l = S754_finite false M E
    /\ 2 ^ 52 <= Zpos M < 2 ^ 53
    /\ e <= E
    /\ E <= Zdigits2 (Zpos m) + e - 52
    /\ 2 * Z.abs (Zpos M * 2 ^ (E - e) * D - X) <= 2 ^ (E - e) * D.
Proof.
  intros HD Hin Hdg Hlo Hhi.
  set (dg := Zdigits2 (Zpos m)) in *.
  set (n := dg - 53).
  unfold binary_round_aux, shr_fexp. fold dg.
  rewrite (fexp_normal (dg + e)) by lia.
  replace (dg + e - 53 - e) with n by (unfold n; lia).
  pose proof (shr_inbR (shr_record_of_loc (Zpos m) l) e n X D HD
                ltac:(unfold n; lia)
                (shr_record_of_loc_inbR (Zpos m) l X D ltac:(lia) Hin))
    as [He1 [Hm1 Hin1]].
  destruct (shr (shr_record_of_loc (Zpos m) l) e n) as [r1 e1].
  cbn [fst snd] in He1, Hm1, Hin1. subst e1.
  set (m1 := shr_m r1) in *. set (l1 := loc_of_shr_record r1) in *.
  assert (HD1 : 0 < D * 2 ^ n)
    by (apply Z.mul_pos_pos; [lia | apply Z.pow_pos_nonneg; unfold n; lia]).
  assert (Hb1 : 2 ^ 52 <= m1 < 2 ^ 53).
  { apply (coarser_mantissa (Zpos m) m1 X D n 52);
      [exact HD | unfold n; lia | lia | | |].
    - apply (inb_bounds _ l); assumption.
    - apply (inb_bounds _ l1); assumption.
    - pose proof (Zdigits2_bounds m) as Hb. fold dg in Hb.
      replace (52 + n) with (dg - 1) by (unfold n; lia).
      replace (52 + 1 + n) with dg by (unfold n; lia). exact Hb. }
  destruct (round_nearest_even_spec m1 l1 X (D * 2 ^ n) HD1 Hin1)
    as [Hr Herr].
  set (m2 := round_nearest_even m1 l1) in *.
  destruct (Z.eq_dec m2 (2 ^ 53)) as [Hc | Hc].
  - (* the mantissa was rounded up to a power of two *)
    rewrite Hc. change (Zdigits2 (2 ^ 53)) with 54.
    rewrite (fexp_normal (54 + (e + n))) by (unfold n; lia).
    replace (54 + (e + n) - 53 - (e + n)) with 1 by lia.
    assert (Hs : shr (shr_record_of_loc (2 ^ 53) loc_Exact) (e + n) 1
                 = ({| shr_m := Z.pos 4503599627370496; shr_r := false;
                       shr_s := false |}, e + n + 1)) by reflexivity.
    rewrite Hs. cbn [shr_m].
    replace (e + n + 1 <=? JS.emax - JS.prec) with true
      by (symmetry; apply Z.leb_le; unfold JS.emax, JS.prec, n; lia).
    exists 4503599627370496%positive, (e + n + 1).
    split; [reflexivity |].
    split; [split; [reflexivity | reflexivity] |].
    split; [unfold n; lia |]. split; [unfold n; lia |].
    replace (e + n + 1 - e) with (n + 1) by lia.
    rewrite Z.pow_add_r by (unfold n; lia). change (2 ^ 1) with 2.
    change (Z.pos 4503599627370496) with (2 ^ 52).
    replace (2 ^ 52 * (2 ^ n * 2) * D - X) with (m2 * (D * 2 ^ n) - X)
      by (rewrite Hc; change (2 ^ 53) with (2 ^ 52 * 2); ring).
    lia.
  - assert (Hb2 : 2 ^ 52 <= m2 < 2 ^ 53) by lia.
    destruct m2 as [|p2|p2] eqn:Hm2; [lia | | lia].
    rewrite (Zdigits2_unique p2 53) by exact Hb2.
    rewrite (fexp_normal (53 + (e + n))) by (unfold n; lia).
    replace (53 + (e + n) - 53 - (e + n)) with 0 by lia.
    cbn [shr_record_of_loc shr shr_m].
    replace (e + n <=? JS.emax - JS.prec) with true
      by (symmetry; apply Z.leb_le; unfold JS.emax, JS.prec, n; lia).
    exists p2, (e + n). split; [reflexivity |]. split; [exact Hb2 |].
    split; [unfold n; lia |]. split; [unfold n; lia |].
    replace (e + n - e) with n by lia.
    replace (Z.pos p2 * 2 ^ n * D - X) with (Z.pos p2 * (D * 2 ^ n) - X)
      by ring.
    replace (2 ^ n * D) with (D * 2 ^ n) by ring. exact Herr.
Qed.

Lemma new_location_inb n k q :
  0 < n -> 0 <= k < n -> inb q (new_location n k) (q * n + k) n.
Proof.
  intros Hn Hk. unfold new_location.
  destruct (Z.even n) eqn:Hev;
    [unfold new_location_even | unfold new_location_odd];
    destruct (k =? 0) eqn:Hk0;
    [apply Z.eqb_eq in Hk0 | apply Z.eqb_neq in Hk0
     | apply Z.eqb_eq in Hk0 | apply Z.eqb_neq in Hk0];
    unfold inb; try lia.
  - split; [lia |].
    destruct (Z.compare_spec (2 * k) n);
      [apply Z.compare_eq_iff | apply Z.compare_lt_iff
       | apply Z.compare_gt_iff]; lia.
  - assert (Hodd : Z.odd n = true)
      by (rewrite <- Z.negb_even, Hev; reflexivity).
    apply Z.odd_spec in Hodd as [j Hj].
    split; [lia |].
    destruct (Z.compare_spec (2 * k + 1) n);
      [apply Z.compare_lt_iff | apply Z.compare_lt_iff
       | apply Z.compare_gt_iff]; lia.
Qed.

(** The quotient of two integers, truncated at the exponent the division
    chooses. *)
Lemma SFdiv_core_binary_spec mx ex my ey :
  let dx := Zdigits2 (Zpos mx) in
  let dy := Zdigits2 (Zpos my) in
  let e' := Z.min (fexp JS.prec JS.emax (dx + ex - (dy + ey))) (ex - ey) in
  let s := ex - ey - e' in
  let q := (Zpos mx * 2 ^ s) / Zpos my in
  0 <= s
  /\ exists l,
      SFdiv_core_binary JS.prec JS.emax (Zpos mx) ex (Zpos my) ey = (q, e', l)
      /\ inb q l (Zpos mx * 2 ^ s) (Zpos my).
Proof.
  intros dx dy e' s q.
  assert (Hs : 0 <= s) by (unfold s, e'; lia).
  split; [exact Hs |].
  unfold SFdiv_core_binary. fold dx dy. fold e'. fold s.
  assert (Hm : match s with
               | Z0 => Zpos mx
               | Zpos _ => Z.shiftl (Zpos mx) s
               | Zneg _ => 0
               end = Zpos mx * 2 ^ s).
  { destruct s as [|p|p] eqn:E; [cbn; lia | | lia].
    rewrite Z.shiftl_mul_pow2 by lia. reflexivity. }
  rewrite Hm.
  pose proof (Z_div_mod (Zpos mx * 2 ^ s) (Zpos my) ltac:(lia)) as Hdm.
  unfold q, Z.div.
  destruct (Z.div_eucl (Zpos mx * 2 ^ s) (Zpos my)) as [q0 r0].
  destruct Hdm as [Heq Hr].
  eexists. split; [reflexivity |].
  rewrite Heq. replace (Zpos my * q0 + r0) with (q0 * Zpos my + r0) by ring.
  apply new_location_inb; lia.
Qed.

(** The number of binary digits of the truncated quotient. *)
Lemma quotient_digits mx my s :
  0 <= s ->
  let t := Zdigits2 (Zpos mx) + s - Zdigits2 (Zpos my) in
  1 <= t ->
  let q := (Zpos mx * 2 ^ s) / Zpos my in
  2 ^ (t - 1) <= q < 2 ^ (t + 1).
Proof.
  intros Hs t Ht q.
  pose proof (Zdigits2_bounds mx) as [Hxl Hxu].
  pose proof (Zdigits2_bounds my) as [Hyl Hyu].
  set (dx := Zdigits2 (Zpos mx)) in *. set (dy := Zdigits2 (Zpos my)) in *.
  assert (Hdx : 1 <= dx) by (unfold dx; simpl; lia).
  assert (Hdy : 1 <= dy) by (unfold dy; simpl; lia).
  assert (HS : 0 < 2 ^ s) by (apply Z.pow_pos_nonneg; lia).
  split.
  - apply Z.div_le_lower_bound; [lia |].
    (* my * 2^(t-1) <= 2^dy * 2^(t-1) = 2^(dx-1+s) <= mx * 2^s *)
    apply Z.le_trans with (2 ^ dy * 2 ^ (t - 1)).
    + apply Z.mul_le_mono_nonneg_r; [apply Z.pow_nonneg; lia | lia].
    + rewrite <- Z.pow_add_r by lia.
      replace (dy + (t - 1)) with (dx - 1 + s) by (unfold t; lia).
      rewrite Z.pow_add_r by lia.
      apply Z.mul_le_mono_nonneg_r; lia.
  - apply Z.div_lt_upper_bound; [lia |].
    (* mx * 2^s < 2^dx * 2^s = 2^(dy-1) * 2^(t+1) <= my * 2^(t+1) *)
    apply Z.lt_le_trans with (2 ^ dx * 2 ^ s).
    + apply Z.mul_lt_mono_pos_r; lia.
    + rewrite <- Z.pow_add_r by lia.
      replace (dx + s) with (dy - 1 + (t + 1)) by (unfold t; lia).
      rewrite Z.pow_add_r by lia.
      apply Z.mul_le_mono_nonneg_r; [apply Z.pow_nonneg; lia | lia].
Qed.

(** Division of two positive finite numbers whose quotient is in the
    normal range: the result is a normal number within half a unit in the
    last place of the quotient. *)
Lemma SFdiv_normal mx ex my ey :
  let L := Zdigits2 (Zpos mx) + ex - Zdigits2 (Zpos my) - ey in
  -1021 <= L <= 1022 ->
  exists M E s t,
    SFdiv JS.prec JS.emax (S754_finite false mx ex) (S754_finite false my ey)
    = S754_finite false M E
    /\ 2 ^ 52 <= Zpos M < 2 ^ 53
    /\ 0 <= s /\ 0 <= t
    /\ E = ex - ey - s + t
    /\ L - 53 <= E <= L - 51
    /\ 2 * Z.abs (Zpos M * 2 ^ t * Zpos my - Zpos mx * 2 ^ s)
       <= 2 ^ t * Zpos my.
Proof.
  intros L HL.
  pose proof (SFdiv_core_binary_spec mx ex my ey) as Hcore.
  cbv zeta in Hcore.
  set (dx := Zdigits2 (Zpos mx)) in *. set (dy := Zdigits2 (Zpos my)) in *.
  assert (Hdx : 1 <= dx) by (unfold dx; simpl; lia).
  assert (Hdy : 1 <= dy) by (unfold dy; simpl; lia).
  replace (dx + ex - (dy + ey)) with L in Hcore by (unfold L; lia).
  rewrite (fexp_normal L) in Hcore by lia.
  set (e' := Z.min (L - 53) (ex - ey)) in *.
  set (s := ex - ey - e') in *.
  destruct Hcore as (Hs & l & Hcore & Hin).
  set (q := Z.pos mx * 2 ^ s / Z.pos my) in *.
  assert (Ht0 : 53 <= dx + s - dy) by (unfold s, e', L; lia).
  pose proof (quotient_digits mx my s Hs ltac:(fold dx dy; lia)) as Hq.
  cbv zeta in Hq. fold dx dy q in Hq.
  set (t0 := dx + s - dy) in *.
  assert (Hqpos : 0 < q).
  { assert (0 < 2 ^ (t0 - 1)) by (apply Z.pow_pos_nonneg; lia). lia. }
  destruct q as [|qp|qp] eqn:Eq; [lia | | lia].
  assert (Hdq : Zdigits2 (Zpos qp) = t0 \/ Zdigits2 (Zpos qp) = t0 + 1).
  { destruct (Z.lt_ge_cases (Zpos qp) (2 ^ t0)) as [Hlt | Hge].
    - left. apply Zdigits2_unique. lia.
    - right. apply Zdigits2_unique.
      replace (t0 + 1 - 1) with t0 by lia. lia. }
  assert (Hte : t0 + e' = L) by (unfold t0, s, L; lia).
  destruct (binary_round_aux_normal qp e' l (Zpos mx * 2 ^ s) (Zpos my))
    as (M & E & Hres & HM & HE1 & HE2 & Herr);
    [lia | exact Hin | lia | lia | lia |].
  exists M, E, s, (E - e').
  unfold SFdiv. rewrite Hcore. cbn [xorb].
  split; [exact Hres |]. split; [exact HM |].
  split; [exact Hs |]. split; [lia |].
  split; [unfold s; lia |].
  split; [|exact Herr].
  (* the exponent *)
  assert (Zdigits2 (Zpos qp) + e' - 53 <= E).
  { (* the result keeps 53 digits of a quotient with that many digits *)
    destruct (Z.le_gt_cases (Zdigits2 (Zpos qp) + e' - 53) E) as [|Hlt];
      [assumption | exfalso].
    (* otherwise the result would be too small for its error bound *)
    set (n := Zdigits2 (Zpos qp) - 53) in *.
    assert (Hn : E - e' < n) by (unfold n; lia).
    pose proof (inb_bounds _ _ _ _ Hin ltac:(lia)) as [Hxl Hxu].
    pose proof (Zdigits2_bounds qp) as [Hql Hqu].
    replace (Zdigits2 (Zpos qp) - 1) with (52 + n) in Hql by (unfold n; lia).
    assert (Hn0 : 0 <= n) by (unfold n; lia).
    assert (Hp : 2 * 2 ^ (E - e') <= 2 ^ n).
    { replace n with (n - 1 + 1) by lia.
      rewrite (Z.pow_add_r 2 (n - 1) 1) by lia. change (2 ^ 1) with 2.
      assert (2 ^ (E - e') <= 2 ^ (n - 1))
        by (apply Z.pow_le_mono_r; lia). lia. }
    rewrite Z.pow_add_r in Hql by lia.
    set (T := 2 ^ (E - e')) in *. set (P := 2 ^ n) in *.
    assert (HT : 0 < T) by (apply Z.pow_pos_nonneg; lia).
    assert (Hbig : Zpos M * T * Zpos my + T * Zpos my
                   <= 2 ^ 52 * P * Zpos my).
    { replace (Zpos M * T * Zpos my + T * Zpos my)
        with ((Zpos M + 1) * T * Zpos my) by ring.
      apply Z.mul_le_mono_nonneg_r; [lia |].
      apply Z.le_trans with (2 ^ 53 * T).
      - apply Z.mul_le_mono_nonneg_r; lia.
      - change (2 ^ 53) with (2 ^ 52 * 2). lia. }
    assert (Hx : 2 ^ 52 * P * Zpos my <= Zpos mx * 2 ^ s).
    { apply Z.le_trans with (Zpos qp * Zpos my); [|lia].
      apply Z.mul_le_mono_nonneg_r; lia. }
    lia. }
  lia.
Qed.

(** Scaling an error bound by a positive factor. *)
Lemma half_scale a b c w :
  0 < w -> 2 * Z.abs (a - b) <= c <-> 2 * Z.abs (w * a - w * b) <= w * c.
Proof.
  intros Hw. rewrite <- Z.mul_sub_distr_l, Z.abs_mul, (Z.abs_eq w) by lia.
  replace (2 * (w * Z.abs (a - b))) with (w * (2 * Z.abs (a - b))) by ring.
  split; intros H.
  - apply Z.mul_le_mono_nonneg_l; lia.
  - apply Z.mul_le_mono_pos_l in H; assumption.
Qed.

Lemma pow2_pos n : 0 <= n -> 0 < 2 ^ n.
Proof. intros. apply Z.pow_pos_nonneg; lia. Qed.

Lemma pow2_lt_inv a b : 0 <= b -> 2 ^ a < 2 ^ b -> a < b.
Proof.
  intros Hb H. destruct (Z.lt_ge_cases a b) as [|Hge]; [assumption |].
  assert (2 ^ b <= 2 ^ a) by (apply Z.pow_le_mono_r; lia). lia.
Qed.

(** The number nearest to a fraction between [2 ^ -60] and [2 ^ 51]. *)
Lemma ofRatio_round P Q :
  Zpos Q < Zpos P * 2 ^ 60 ->
  Zpos P < 2 ^ 51 * Zpos Q ->
  exists M g,
    JS.ofRatio false P Q = S754_finite false M (- g)
    /\ 0 <= g <= 120
    /\ 2 ^ 52 <= Zpos M < 2 ^ 53
    /\ 2 * Z.abs (Zpos M * Zpos Q - Zpos P * 2 ^ g) <= Zpos Q.
Proof.
  intros Hlo Hhi.
  pose proof (Zdigits2_bounds P) as [HPl HPu].
  pose proof (Zdigits2_bounds Q) as [HQl HQu].
  set (dP := Zdigits2 (Zpos P)) in *. set (dQ := Zdigits2 (Zpos Q)) in *.
  assert (HdP : 1 <= dP) by (unfold dP; simpl; lia).
  assert (HdQ : 1 <= dQ) by (unfold dQ; simpl; lia).
  assert (HL1 : dP - 1 < 51 + dQ).
  { apply pow2_lt_inv; [lia |]. rewrite Z.pow_add_r by lia.
    pose proof (pow2_pos 51 ltac:(lia)). nia. }
  assert (HL2 : dQ - 1 < dP + 60).
  { apply pow2_lt_inv; [lia |]. rewrite Z.pow_add_r by lia.
    pose proof (pow2_pos 60 ltac:(lia)). nia. }
  destruct (SFdiv_normal P 0 Q 0) as (M & E & s & t & Hres & HM & Hs & Ht
                                      & HE & HEr & Herr).
  { cbv zeta. fold dP dQ. lia. }
  cbv zeta in HEr. fold dP dQ in HEr.
  exists M, (- E). unfold JS.ofRatio.
  rewrite Z.opp_involutive. split; [exact Hres |].
  split; [lia |]. split; [exact HM |].
  assert (Hst : s = t + - E) by lia. rewrite Hst in Herr.
  rewrite Z.pow_add_r in Herr by lia.
  apply (half_scale _ _ _ (2 ^ t)); [apply pow2_pos; lia |].
  replace (2 ^ t * (Zpos M * Zpos Q)) with (Zpos M * 2 ^ t * Zpos Q) by ring.
  replace (2 ^ t * (Zpos P * 2 ^ (- E))) with (Zpos P * (2 ^ t * 2 ^ (- E)))
    by ring.
  exact Herr.
Qed.

(** The powers of ten from [10] to [10 ^ 18] are numbers, exactly. *)
Lemma pow10_shape (k : N) :
  (1 <= k <= 18)%N ->
  exists mk ek,
    JS.pow10 k = S754_finite false mk ek
    /\ 2 ^ 52 <= Zpos mk < 2 ^ 53
    /\ -49 <= ek <= 7
    /\ Zpos mk * 2 ^ (ek + 49) = 10 ^ Z.of_N k * 2 ^ 49.
Proof.
  intros Hk.
  assert (Hn : exists n, k = N.of_nat n /\ (1 <= n <= 18)%nat).
  { exists (N.to_nat k). split; [symmetry; apply N2Nat.id | lia]. }
  destruct Hn as (n & -> & Hn).
  do 19 (destruct n as [|n]; [first [lia |
    eexists _, _; split; [vm_compute; reflexivity |];
    split; [split; [vm_compute; discriminate | vm_compute; reflexivity] |];
    split; [split; vm_compute; discriminate |];
    vm_compute; reflexivity] |]).
  lia.
Qed.

(** The quotient of a normal number by a power of ten, with the error of
    its rounding. *)
Lemma div_pow10_round M1 g1 (k : N) :
  2 ^ 52 <= Zpos M1 < 2 ^ 53 ->
  0 <= g1 <= 900 ->
  (1 <= k <= 18)%N ->
  exists M2 g2,
    JS.div (S754_finite false M1 (- g1)) (JS.pow10 k)
    = S754_finite false M2 (- g2)
    /\ 0 < g2 <= 1100
    /\ 2 ^ 52 <= Zpos M2 < 2 ^ 53
    /\ 2 * Z.abs (Zpos M2 * 2 ^ g1 * 10 ^ Z.of_N k - Zpos M1 * 2 ^ g2)
       <= 2 ^ g1 * 10 ^ Z.of_N k.
Proof.
  intros HM1 Hg1 Hk.
  destruct (pow10_shape k Hk) as (mk & ek & -> & Hmk & Hek & Hexact).
  assert (Hd1 : Zdigits2 (Zpos M1) = 53) by (apply Zdigits2_unique; exact HM1).
  assert (Hdk : Zdigits2 (Zpos mk) = 53) by (apply Zdigits2_unique; exact Hmk).
  destruct (SFdiv_normal M1 (- g1) mk ek)
    as (M2 & E & s & t & Hres & HM2 & Hs & Ht & HE & HEr & Herr).
  { cbv zeta. rewrite Hd1, Hdk. lia. }
  cbv zeta in HEr. rewrite Hd1, Hdk in HEr.
  exists M2, (- E). unfold JS.div.
  rewrite Z.opp_involutive. split; [exact Hres |].
  split; [lia |]. split; [exact HM2 |].
  set (T := 10 ^ Z.of_N k) in *.
  (* scale the bound by 2 ^ (g1 + ek + 49) *)
  apply (half_scale _ _ _ (2 ^ (g1 + ek + 49))) in Herr;
    [|apply pow2_pos; lia].
  apply (half_scale _ _ _ (2 ^ t * 2 ^ 49));
    [pose proof (pow2_pos t Ht); pose proof (pow2_pos 49 ltac:(lia)); nia |].
  assert (E1 : 2 ^ (g1 + ek + 49) * (Zpos M2 * 2 ^ t * Zpos mk)
               = 2 ^ t * 2 ^ 49 * (Zpos M2 * 2 ^ g1 * T)).
  { replace (g1 + ek + 49) with (g1 + (ek + 49)) by lia.
    rewrite Z.pow_add_r by lia.
    replace (2 ^ g1 * 2 ^ (ek + 49) * (Zpos M2 * 2 ^ t * Zpos mk))
      with (2 ^ g1 * Zpos M2 * 2 ^ t * (Zpos mk * 2 ^ (ek + 49))) by ring.
    rewrite Hexact. ring. }
  assert (E2 : 2 ^ (g1 + ek + 49) * (Zpos M1 * 2 ^ s)
               = 2 ^ t * 2 ^ 49 * (Zpos M1 * 2 ^ (- E))).
  { replace (2 ^ (g1 + ek + 49) * (Zpos M1 * 2 ^ s))
      with (Zpos M1 * (2 ^ (g1 + ek + 49) * 2 ^ s)) by ring.
    rewrite <- Z.pow_add_r by lia.
    replace (g1 + ek + 49 + s) with (t + 49 + - E) by lia.
    rewrite !Z.pow_add_r by lia. ring. }
  assert (E3 : 2 ^ (g1 + ek + 49) * (2 ^ t * Zpos mk)
               = 2 ^ t * 2 ^ 49 * (2 ^ g1 * T)).
  { replace (g1 + ek + 49) with (g1 + (ek + 49)) by lia.
    rewrite Z.pow_add_r by lia.
    replace (2 ^ g1 * 2 ^ (ek + 49) * (2 ^ t * Zpos mk))
      with (2 ^ g1 * 2 ^ t * (Zpos mk * 2 ^ (ek + 49))) by ring.
    rewrite Hexact. ring. }
  rewrite E1, E2, E3 in Herr. exact Herr.
Qed.

End Rounding.

(* ===================================================================== *)
(** * The amount string of the approval is exact for everyday amounts   *)
(* ===================================================================== *)

Module ApprovalAmount.
Import Rounding SupplyModal Conversion.

(** [toFixed(18)] of a positive number below [1]: the nearest multiple of
    [10 ^ -18]. *)
Lemma toFixed18_small M g :
  0 < g -> Zpos M < 2 ^ 53 ->
  JS.toFixed (S754_finite false M (- g)) 18
  = JS.fixedDigits
      (Z.to_N ((2 * Zpos M * 10 ^ 18 + 2 ^ g) / (2 * 2 ^ g))) 18.
Proof.
  intros Hg HM. unfold JS.toFixed, JS.ratioOf.
  replace (0 <=? - g) with false by (symmetry; apply Z.leb_gt; lia).
  rewrite Z.opp_involutive.
  replace (10 ^ 21 * 2 ^ g <=? Zpos M) with false.
  - reflexivity.
  - symmetry. apply Z.leb_gt.
    pose proof (pow2_pos g ltac:(lia)) as Hp.
    assert (2 ^ 53 < 10 ^ 21) by (vm_compute; reflexivity).
    assert (10 ^ 21 * 1 <= 10 ^ 21 * 2 ^ g)
      by (apply Z.mul_le_mono_nonneg_l; lia).
    lia.
Qed.

(** The arithmetic of the conversion.  The fraction [P / Q] is the amount,
    [u] its integer units for [d] decimals, [k = 18 - d]. *)
Lemma conversion_core (P Q : positive) (d k : N) (u : Z) :
  (d + k = 18)%N -> (1 <= k)%N ->
  Zpos P * 10 ^ Z.of_N d = u * Zpos Q ->
  u <= 2 * 10 ^ 15 ->
  JS.toFixed (JS.div (JS.ofRatio false P Q) (JS.pow10 k)) 18
  = JS.fixedDigits (Z.to_N u) 18.
Proof.
  intros Hdk Hk Hu Hmax.
  set (Dd := 10 ^ Z.of_N d) in *.
  assert (HDd : 1 <= Dd <= 10 ^ 17).
  { unfold Dd. split.
    - apply (Z.pow_le_mono_r 10 0); lia.
    - apply Z.pow_le_mono_r; lia. }
  assert (Hu0 : 0 < u) by nia.
  assert (Hlo : Zpos Q < Zpos P * 2 ^ 60).
  { assert (10 ^ 17 < 2 ^ 60) by (vm_compute; reflexivity). nia. }
  assert (Hhi : Zpos P < 2 ^ 51 * Zpos Q).
  { assert (2 * 10 ^ 15 < 2 ^ 51) by (vm_compute; reflexivity). nia. }
  destruct (ofRatio_round P Q Hlo Hhi) as (M1 & g1 & -> & Hg1 & HM1 & Herr1).
  destruct (div_pow10_round M1 g1 k HM1 ltac:(lia) ltac:(lia))
    as (M2 & g2 & -> & Hg2 & HM2 & Herr2).
  rewrite toFixed18_small by lia.
  do 2 f_equal.
  set (q1 := 2 ^ g1) in *. set (q2 := 2 ^ g2) in *.
  assert (Hq1 : 0 < q1) by (apply pow2_pos; lia).
  assert (Hq2 : 0 < q2) by (apply pow2_pos; lia).
  assert (H18 : 10 ^ Z.of_N k * Dd = 10 ^ 18).
  { unfold Dd. rewrite <- Z.pow_add_r by lia.
    replace (Z.of_N k + Z.of_N d) with 18 by lia. reflexivity. }
  set (T := 10 ^ 18) in *.
  (* both error bounds over the common denominator q1 * q2 *)
  apply (half_scale _ _ _ Dd) in Herr2; [|lia].
  replace (Dd * (Zpos M2 * q1 * 10 ^ Z.of_N k))
    with (Zpos M2 * q1 * (10 ^ Z.of_N k * Dd)) in Herr2 by ring.
  replace (Dd * (q1 * 10 ^ Z.of_N k))
    with (q1 * (10 ^ Z.of_N k * Dd)) in Herr2 by ring.
  rewrite H18 in Herr2.
  apply (half_scale _ _ _ (Dd * q2)) in Herr1; [|nia].
  replace (Dd * q2 * (Zpos P * q1)) with (q1 * q2 * (Zpos P * Dd)) in Herr1
    by ring.
  rewrite Hu in Herr1.
  replace (Dd * q2 * (Zpos M1 * Zpos Q))
    with (Zpos Q * (Dd * (Zpos M1 * q2))) in Herr1 by ring.
  replace (q1 * q2 * (u * Zpos Q)) with (Zpos Q * (u * q1 * q2)) in Herr1
    by ring.
  replace (Dd * q2 * Zpos Q) with (Zpos Q * (Dd * q2)) in Herr1 by ring.
  apply (half_scale _ _ _ (Zpos Q)) in Herr1; [|lia].
  set (AC := Zpos M2 * q1 * T) in *.
  set (BC := Dd * (Zpos M1 * q2)) in *.
  set (UC := u * q1 * q2) in *.
  set (h2 := q1 * T) in *. set (h1 := Dd * q2) in *.
  assert (HAC : 2 ^ 52 * h2 <= AC) by (unfold AC, h2; nia).
  assert (HBC : 2 ^ 52 * h1 <= BC) by (unfold BC, h1; nia).
  assert (HUC : UC <= 2 * 10 ^ 15 * (q1 * q2)) by (unfold UC; nia).
  assert (Hh1 : 0 < h1) by (unfold h1; nia).
  assert (Hh2 : 0 < h2) by (unfold h2, T; nia).
  set (C := q1 * q2) in *.
  assert (HC : 0 < C) by (unfold C; nia).
  assert (Hlow : 2 * UC <= 2 * AC + C) by lia.
  assert (Hupp : 2 * AC + C < 2 * UC + 2 * C) by lia.
  assert (Hlow' : 2 * q2 * u <= 2 * Zpos M2 * T + q2).
  { apply (Z.mul_le_mono_pos_l _ _ q1); [lia|].
    replace (q1 * (2 * q2 * u)) with (2 * UC) by (unfold UC; ring).
    replace (q1 * (2 * Zpos M2 * T + q2)) with (2 * AC + C)
      by (unfold AC, C; ring).
    exact Hlow. }
  assert (Hupp' : 2 * Zpos M2 * T + q2 < 2 * q2 * (u + 1)).
  { apply (Z.mul_lt_mono_pos_l q1); [lia|].
    replace (q1 * (2 * q2 * (u + 1))) with (2 * UC + 2 * C)
      by (unfold UC, C; ring).
    replace (q1 * (2 * Zpos M2 * T + q2)) with (2 * AC + C)
      by (unfold AC, C; ring).
    exact Hupp. }
  symmetry.
  apply (Z.div_unique _ _ _ (2 * Zpos M2 * T + q2 - 2 * q2 * u)); lia.
Qed.

(** A decimal digit or a point is neither white space, a sign, nor the
    first letter of [Infinity]. *)
Definition startsLiteral (c : ascii) : bool :=
  match JS.digitValue c with
  | Some _ => true
  | None => Ascii.eqb c "."
  end.

Lemma startsLiteral_plain c :
  startsLiteral c = true ->
  JS.isWhiteSpace c = false /\ Ascii.eqb c "-" = false
  /\ Ascii.eqb c "+" = false /\ Ascii.eqb "I" c = false.
Proof.
  destruct c as [[] [] [] [] [] [] [] []]; vm_compute; intros H;
    first [discriminate H | repeat split].
Qed.

Lemma scanUnsigned_head cs n e :
  JS.scanUnsigned cs = Some (n, e) ->
  exists c r, cs = c :: r /\ startsLiteral c = true.
Proof.
  destruct cs as [|c r]; [discriminate|].
  intros H. exists c, r. split; [reflexivity|].
  unfold startsLiteral. unfold JS.scanUnsigned in H. cbn [JS.takeDigits] in H.
  destruct (JS.digitValue c); [reflexivity|].
  destruct (Ascii.eqb c "."); [reflexivity | discriminate].
Qed.

(** [parseFloat] of a string that starts with an unsigned decimal literal
    is the number nearest to the literal. *)
Lemma parseFloatChars_scan cs n e :
  JS.scanUnsigned cs = Some (n, e) ->
  JS.parseFloatChars cs = JS.ofDecimal false n e.
Proof.
  intros H.
  destruct (scanUnsigned_head _ _ _ H) as (c & r & -> & Hc).
  destruct (startsLiteral_plain _ Hc) as (Hw & Hm & Hp & Hi).
  unfold JS.parseFloatChars. cbn [JS.trimStart]. rewrite Hw, Hm, Hp.
  cbn [list_ascii_of_string JS.isPrefix]. rewrite Hi. cbn [andb].
  rewrite H. reflexivity.
Qed.

Lemma div_zero_pow10 (k : N) :
  (1 <= k <= 18)%N -> JS.div (S754_zero false) (JS.pow10 k) = S754_zero false.
Proof.
  intros Hk. destruct (pow10_shape k Hk) as (mk & ek & -> & _). reflexivity.
Qed.

Lemma ofDecimal_units (p : positive) (e : Z) (d : N) :
  0 <= e + Z.of_N d ->
  exists P Q,
    JS.ofDecimal false (Npos p) e = JS.ofRatio false P Q
    /\ Zpos P * 10 ^ Z.of_N d = Zpos p * 10 ^ (e + Z.of_N d) * Zpos Q.
Proof.
  intros He. unfold JS.ofDecimal.
  destruct (0 <=? e) eqn:E.
  - apply Z.leb_le in E. eexists _, _. split; [reflexivity|].
    assert (0 < 10 ^ e) by (apply Z.pow_pos_nonneg; lia).
    rewrite Pos2Z.inj_mul, Z2Pos.id by lia.
    rewrite Z.pow_add_r by lia. ring.
  - apply Z.leb_gt in E. eexists _, _. split; [reflexivity|].
    assert (0 < 10 ^ (- e)) by (apply Z.pow_pos_nonneg; lia).
    rewrite Z2Pos.id by lia.
    rewrite <- Z.mul_assoc, <- Z.pow_add_r by lia.
    replace (e + Z.of_N d + - e) with (Z.of_N d) by lia. reflexivity.
Qed.

(** For a token with fewer than 18 decimals and an amount typed as plain
    decimal digits (with or without a fraction or an exponent) that stands
    for a whole number [u] of the token's smallest units, at most
    [2 * 10 ^ 15] of them, the string [handleApproveClick] passes to
    [approve] is [u] written with 18 decimal places: neither the reading
    of the amount, nor the division by the factor, nor [toFixed(18)] loses
    a unit. *)
Theorem approval_string_exact r amount u :
  (decimals r < 18)%N ->
  exactUnits amount (decimals r) = Some u ->
  u <= 2 * 10 ^ 15 ->
  adjustedAmount r amount = JS.fixedDigits (Z.to_N u) 18.
Proof.
  intros Hd Hu Hmax. unfold adjustedAmount.
  replace (decimals r <? 18)%N with true
    by (symmetry; apply N.ltb_lt; exact Hd).
  unfold exactUnits in Hu.
  destruct (JS.scanUnsigned (list_ascii_of_string amount)) as [[n e]|] eqn:Hs;
    [|discriminate].
  destruct (0 <=? e + Z.of_N (decimals r)) eqn:He; [|discriminate].
  apply Z.leb_le in He. injection Hu as <-.
  unfold JS.parseFloat. rewrite (parseFloatChars_scan _ _ _ Hs).
  destruct n as [|p].
  - cbn [JS.ofDecimal]. rewrite div_zero_pow10 by lia. reflexivity.
  - destruct (ofDecimal_units p e (decimals r) He) as (P & Q & -> & HPQ).
    apply (conversion_core P Q (decimals r));
      [lia | lia | exact HPQ | exact Hmax].
Qed.

Lemma approval_string_exact_instance :
  adjustedAmount (token 6) "1.5" = "0.000000000001500000".
Proof.
  apply (approval_string_exact (token 6) "1.5" 1500000);
    [reflexivity | reflexivity | vm_compute; discriminate].
Defined.

End ApprovalAmount.

(* ===================================================================== *)
(** * Your deposits: which balances count as zero                       *)
(* ===================================================================== *)

Module ZeroBalances.
Import Rounding ApprovalAmount YourDeposits.

(** The quotient of a positive 256-bit integer by [10 ^ 18] is
    a positive finite number. *)
Lemma div_pow10_18_finite b :
  0 < b < 2 ^ 256 ->
  exists M E, JS.div (JS.ofBigInt b) (JS.pow10 18) = S754_finite false M E.
Proof.
  intros Hb. destruct b as [|p|p]; try lia.
  cbn [JS.ofBigInt]. unfold JS.ofRatio.
  pose proof (Zdigits2_bounds p) as Hdp.
  assert (Hlen : 1 <= Zdigits2 (Zpos p) <= 256).
  { split; [unfold Zdigits2; lia|].
    destruct (Z.le_gt_cases (Zdigits2 (Zpos p)) 256) as [|Hgt]; [assumption|].
    exfalso.
    assert (2 ^ 256 <= 2 ^ (Zdigits2 (Zpos p) - 1))
      by (apply Z.pow_le_mono_r; lia).
    lia. }
  destruct (SFdiv_normal p 0 1 0)
    as (M & E & s & t & HE & HM & _ & _ & _ & HEr & _).
  { cbv zeta. change (Zdigits2 1) with 1. lia. }
  cbv zeta in HEr. change (Zdigits2 1) with 1 in HEr.
  rewrite HE.
  destruct (pow10_shape 18 ltac:(lia)) as (mk & ek & -> & Hmk & Hek & _).
  pose proof (Zdigits2_unique M 53 ltac:(lia)) as HdM.
  pose proof (Zdigits2_unique mk 53 ltac:(lia)) as Hdmk.
  destruct (SFdiv_normal M E mk ek) as (M' & E' & _ & _ & HE' & _).
  { cbv zeta. rewrite HdM, Hdmk. lia. }
  exists M', E'. exact HE'.
Qed.

Lemma zero_balance_formats_to_zero :
  JS.strictEq (JS.div (JS.ofBigInt 0) (JS.pow10 18)) JS.zero = true.
Proof.
  cbn [JS.ofBigInt]. unfold JS.zero. rewrite div_zero_pow10 by lia.
  reflexivity.
Qed.

Lemma positive_balance_formats_to_nonzero b :
  0 < b < 2 ^ 256 ->
  JS.strictEq (JS.div (JS.ofBigInt b) (JS.pow10 18)) JS.zero = false.
Proof.
  intros Hb. destruct (div_pow10_18_finite b Hb) as (M & E & ->). reflexivity.
Qed.

(** With a batch of unsigned 256-bit balances, the formatted balances are
    all zero exactly when the balances are: the division by [10 ** 18]
    does not take a balance of a single unit to zero. *)
Theorem all_deposits_zero_iff rd l :
  batchDeposits rd = Some l ->
  Forall (fun b => 0 <= b < 2 ^ 256) l ->
  allDepositsZero rd = true <-> Forall (fun b => b = 0) l.
Proof.
  intros Hrd Hl. unfold allDepositsZero, formattedBalances. rewrite Hrd.
  cbn [formatBatch]. clear Hrd.
  induction Hl as [|b l Hb Hl IH]; cbn [map forallb].
  - split; [constructor | reflexivity].
  - destruct (Z.eq_dec b 0) as [-> | Hne].
    + rewrite zero_balance_formats_to_zero. cbn [andb].
      rewrite IH. split.
      * intros H. constructor; [reflexivity | exact H].
      * intros H. inversion H; assumption.
    + rewrite positive_balance_formats_to_nonzero by lia. cbn [andb].
      split; [discriminate |].
      intros H. inversion H; subst. contradiction.
Qed.

Definition oneWei : Reads := {|
  batchDeposits := Some [0; 1; 0; 0; 0];
  batchMints := Some [0; 0; 0; 0; 0];
  checkRemainingMintingPower := None
|}.

Lemma all_deposits_zero_instance :
  allDepositsZero oneWei = true <-> Forall (fun b => b = 0) [0; 1; 0; 0; 0].
Proof.
  apply (all_deposits_zero_iff oneWei [0; 1; 0; 0; 0] eq_refl).
  repeat constructor; vm_compute; congruence.
Defined.

End ZeroBalances.
